(** * Research assistant: upload / list / chat components and the
      ingestion-and-retrieval core

    The React components of the repository ([DocumentUpload.jsx],
    [DocumentList], [ChatInterface]) are embedded from their source: hook
    state becomes a record, an event handler becomes a function from the
    network's behaviour and the state to the trace of effects it performs
    and the state it leaves, and a render function becomes a function to a
    tree of React elements.

    The services behind the HTTP routes (chunker, embedding provider,
    vector index, retrieval, synthesis) are not among these sources; they
    are modelled from the specification, and every such definition says
    so. *)

From Stdlib Require Import ZArith QArith Qcanon Lia Sorted Ascii.
From stdpp Require Import base tactics option strings pretty numbers list sorting.

Set Warnings "-register-all".
Local Open Scope string_scope.
Local Open Scope list_scope.

(** ** JavaScript values as the components see them

    Everything the components inspect comes out of [res.json()], so the
    values are JSON values, plus [undefined] for a property that is not
    there.  An object keeps its members in source order, a later duplicate
    shadowing an earlier one as [JSON.parse] does. *)
Module JS.

(** A number is an integer in the exactly representable range (the counts
    the services send), or a non-integer kept as the text [ToString] gives
    for it (a similarity score such as [0.8731]). *)
Inductive number : Type :=
  | Int (z : Z)
  | Dec (text : string).

Inductive value : Type :=
  | Undefined
  | Null
  | Bool (b : bool)
  | Num (n : number)
  | Str (s : string)
  | Arr (items : list value)
  | Obj (members : list (string * value)).

(** [ToBoolean]: what [!v] and [v || w] test.  A non-integer is never zero. *)
Definition truthy (v : value) : bool :=
  match v with
  | Undefined | Null => false
  | Bool b => b
  | Num (Int z) => negb (z =? 0)%Z
  | Num (Dec _) => true
  | Str s => negb (String.eqb s "")
  | Arr _ | Obj _ => true
  end.

(** [a || b] *)
Definition or_else (a b : value) : value := if truthy a then a else b.

(** The own member [k] of a parsed object, the last binding winning. *)
Fixpoint own (k : string) (ms : list (string * value)) : option value :=
  match ms with
  | [] => None
  | (k', v) :: rest =>
      match own k rest with
      | Some later => Some later
      | None => if String.eqb k' k then Some v else None
      end
  end.

(** [v.k] for the property names the components read.  [None] is the
    [TypeError] of reading a property of [null] or [undefined].  A string
    and an array answer [length]; no other name the components use is a
    property of a primitive or of an array. *)
Definition get (v : value) (k : string) : option value :=
  match v with
  | Undefined | Null => None
  | Obj ms => Some (default Undefined (own k ms))
  | Arr items =>
      Some (if String.eqb k "length"
            then Num (Int (Z.of_nat (length items))) else Undefined)
  | Str s =>
      Some (if String.eqb k "length"
            then Num (Int (Z.of_nat (String.length s))) else Undefined)
  | Bool _ | Num _ => Some Undefined
  end.

(** [v?.k] *)
Definition get_opt (v : value) (k : string) : value :=
  default Undefined (get v k).

(** [v > 0] where this model determines it.  [undefined] converts to
    [NaN], [null] to [0], a boolean to [0] or [1]; a non-integer is positive
    unless its text carries a minus sign.  The conversion of a string, an
    array or an object to a number is not modelled: [None]. *)
Definition gt_zero (v : value) : option bool :=
  match v with
  | Undefined | Null => Some false
  | Bool b => Some b
  | Num (Int z) => Some (0 <? z)%Z
  | Num (Dec text) => Some (negb (String.prefix "-" text))
  | Str _ | Arr _ | Obj _ => None
  end.

Fixpoint join (sep : string) (parts : list string) : string :=
  match parts with
  | [] => ""
  | [p] => p
  | p :: rest => p ++ sep ++ join sep rest
  end.

(** Whether the conversion of [v] to a primitive, as a template literal,
    ['' + v] and [new Date(v)] perform it, succeeds rather than throwing a
    [TypeError].  A parsed object converts through
    [Object.prototype.toString] unless it has a member named [toString] of
    its own, which is never callable and leaves no conversion; an array
    converts through [join], element by element. *)
Fixpoint printable (v : value) : bool :=
  match v with
  | Obj ms =>
      match own "toString" ms with
      | Some _ => false
      | None => true
      end
  | Arr items =>
      (fix all (xs : list value) : bool :=
         match xs with
         | [] => true
         | x :: rest => printable x && all rest
         end) items
  | _ => true
  end.

(** [undefined], [null], a boolean or a string. *)
Definition plain (v : value) : bool :=
  match v with
  | Undefined | Null | Bool _ | Str _ => true
  | _ => false
  end.

(** [ToString], as a template literal applies it, for a [printable]
    value: the text it gives.  An integer is shown digit for digit, which
    is what JavaScript shows within the exactly representable range. *)
Fixpoint to_string (v : value) : string :=
  match v with
  | Undefined => "undefined"
  | Null => "null"
  | Bool true => "true"
  | Bool false => "false"
  | Num (Int z) => pretty z
  | Num (Dec text) => text
  | Str s => s
  | Arr items =>
      join ","
        ((fix each (xs : list value) : list string :=
            match xs with
            | [] => []
            | Undefined :: rest | Null :: rest => "" :: each rest
            | x :: rest => to_string x :: each rest
            end) items)
  | Obj _ => "[object Object]"
  end.

(** [null] or [undefined]: the two values whose properties cannot be
    read. *)
Definition nullish (v : value) : bool :=
  match v with
  | Undefined | Null => true
  | _ => false
  end.

(** An array value. *)
Definition is_array (v : value) : bool :=
  match v with
  | Arr _ => true
  | _ => false
  end.

End JS.

(** ** React elements, as a render function returns them *)
Module React.

(** Props are kept as text: a handler by its name, a style object by its
    declarations. *)
Inductive node : Type :=
  | Text (s : string)                     (* literal JSX text *)
  | Expr (v : JS.value)                   (* a {value} child *)
  | Items (children : list node)          (* an array child *)
  | Elem (tag : string) (key : option JS.value)
         (props : list (string * string)) (children : list node).

(** How evaluating a piece of JSX ends. *)
Inductive outcome : Type :=
  | Rendered (n : node)
  | Throws                 (* a TypeError escapes the render *)
  | Unmodelled.            (* it hinges on a conversion left out of [JS] *)

End React.

(** ** The network as a handler meets it *)

(** A file picked in an [<input type="file">]. *)
Record File := { file_name : string; file_content : string }.

Inductive request_body : Type :=
  | NoBody
  | FormData (fields : list (string * File))
  | JsonText (stringified : JS.value).   (* JSON.stringify(v) *)

Record request := {
  req_url : string;
  req_method : string;
  req_headers : list (string * string);
  req_body : request_body
}.

(** What [await fetch(...)] followed by [await res.json()] can give: the
    fetch promise rejects, or a response arrives with its [ok] flag and a
    body that parses ([Some]) or makes [res.json()] reject ([None]). *)
Inductive fetch_outcome : Type :=
  | Rejected
  | Responded (ok : bool) (body : option JS.value).

Definition network := request -> fetch_outcome.

(** The exchange gives the handler no value to read: the fetch rejects,
    the body is not JSON, or the body is [null]. *)
Definition no_body (out : fetch_outcome) : bool :=
  match out with
  | Rejected | Responded _ None => true
  | Responded _ (Some data) => JS.nullish data
  end.

(** ** DocumentUpload.jsx *)
Module DocumentUpload.

(** [file] starts as [null]; the input's [onChange] stores [files[0]],
    which is [undefined] when the picker is dismissed. *)
Inductive file_slot : Type :=
  | FileNull
  | FileUndefined
  | FileChosen (f : File).

(** [status] holds whatever was last passed to [setStatus]: a string on
    every path but the failure path, which stores [data.detail] as it came. *)
Record state := { file : file_slot; status : JS.value }.

Definition initial : state := {| file := FileNull; status := JS.Str "" |}.

Inductive effect : Type :=
  | SetStatus (v : JS.value)
  | Fetch (r : request).

Definition setStatus (v : JS.value) (st : state) : state :=
  {| file := file st; status := v |}.

Definition upload_request (f : File) : request :=
  {| req_url := "/api/documents/upload";
     req_method := "POST";
     req_headers := [];
     req_body := FormData [("file", f)] |}.

(** The rest of the [try] block once [res] and [data] are in hand: the
    value handed to [setStatus], or [None] for an exception on its way to
    the [catch]: reading [data.title] when [data] is [null], or filling the
    template with a member that has no conversion to text. *)
Definition after_json (ok : bool) (data : JS.value) : option JS.value :=
  if negb ok then
    Some (JS.or_else (JS.get_opt data "detail") (JS.Str "Upload failed"))
  else
    title ← JS.get data "title";
    chunks ← JS.get data "chunks_processed";
    if JS.printable title && JS.printable chunks
    then Some (JS.Str ("Uploaded: " ++ JS.to_string title
                         ++ " (chunks: " ++ JS.to_string chunks ++ ")"))
    else None.

(** The whole [try { ... } catch (e) { setStatus('Upload failed') }]. *)
Definition try_upload (out : fetch_outcome) : JS.value :=
  match out with
  | Rejected => JS.Str "Upload failed"
  | Responded _ None => JS.Str "Upload failed"
  | Responded ok (Some data) =>
      match after_json ok data with
      | Some v => v
      | None => JS.Str "Upload failed"
      end
  end.

(** [onUpload]: the effects in the order they happen, and the state left. *)
Definition onUpload (net : network) (st : state) : list effect * state :=
  match file st with
  | FileNull | FileUndefined => ([], st)              (* if (!file) return; *)
  | FileChosen f =>
      let st1 := setStatus (JS.Str "Uploading...") st in
      let req := upload_request f in
      let v := try_upload (net req) in
      ([SetStatus (JS.Str "Uploading..."); Fetch req; SetStatus v],
       setStatus v st1)
  end.

Definition requests (tr : list effect) : list request :=
  omap (fun e => match e with Fetch r => Some r | SetStatus _ => None end) tr.

(** The input's [onChange], [(e) => setFile(e.target.files[0])]: [files]
    is the picker's selection, empty when the picker is dismissed. *)
Definition onChange (files : list File) (st : state) : state :=
  {| file := match files with
             | [] => FileUndefined
             | f :: _ => FileChosen f
             end;
     status := status st |}.

(** The element the component returns. *)
Definition render (st : state) : React.node :=
  React.Elem "div" None [("className", "card")]
    [ React.Elem "h3" None [] [React.Text "📤 Upload PDF"];
      React.Elem "input" None
        [("type", "file"); ("accept", "application/pdf");
         ("onChange", "setFile(e.target.files[0])")] [];
      React.Elem "button" None
        [("onClick", "onUpload"); ("style", "marginLeft:8")]
        [React.Text "Upload"];
      React.Elem "div" None [] [React.Expr (status st)] ].

(** An upload that fails without a text of its own: nothing to read, or
    a response that is not [ok] and has no truthy [detail]. *)
Definition fails_silently (out : fetch_outcome) : bool :=
  match out with
  | Responded false (Some data) =>
      negb (JS.truthy (JS.get_opt data "detail"))
  | _ => no_body out
  end.

End DocumentUpload.

(** ** DocumentList *)
Module DocumentList.

(** [docs] starts as [[]] and then holds whatever [load] stored. *)
Record state := { docs : JS.value }.

Definition initial : state := {| docs := JS.Arr [] |}.

Inductive effect : Type :=
  | SetDocs (v : JS.value)
  | Fetch (r : request).

Definition list_request : request :=
  {| req_url := "/api/documents/";
     req_method := "GET";
     req_headers := [];
     req_body := NoBody |}.

(** [load] has no [try]: when the fetch or [res.json()] rejects, or [data]
    is [null], the handler's promise rejects after the request and nothing
    is stored.  [res.ok] is not looked at. *)
Definition load (net : network) (st : state) : list effect * state :=
  match net list_request with
  | Rejected | Responded _ None => ([Fetch list_request], st)
  | Responded _ (Some data) =>
      match JS.get data "documents" with
      | None => ([Fetch list_request], st)
      | Some documents =>
          let v := JS.or_else documents (JS.Arr []) in
          ([Fetch list_request; SetDocs v], {| docs := v |})
      end
  end.

Section Render.

(** [new Date(x).toLocaleString()]: the text depends on the browser's
    locale and time zone, so it is a parameter of the render. *)
Variable toLocaleString : JS.value -> string.

(** The arrow function under [docs.map]; [None] when it throws: [d] is
    [null] or [undefined], [new Date(d.upload_date)] finds no conversion
    for its argument, or the element finds none for its key.  The tree
    keeps the key as it was passed. *)
Definition row (d : JS.value) : option React.node :=
  document_id ← JS.get d "document_id";
  title ← JS.get d "title";
  upload_date ← JS.get d "upload_date";
  total_chunks ← JS.get d "total_chunks";
  if JS.printable upload_date && JS.printable document_id
  then Some (React.Elem "div" (Some document_id) []
               [ React.Elem "strong" None [] [React.Expr title];
                 React.Text " — ";
                 React.Expr (JS.Str (toLocaleString upload_date));
                 React.Text " — chunks: ";
                 React.Expr total_chunks ])
  else None.

(** [docs.length === 0 ? ... : docs.map(...)]; only an array has [map]. *)
Definition listing (ds : JS.value) : React.outcome :=
  match JS.get ds "length" with
  | None => React.Throws
  | Some (JS.Num (JS.Int 0)) =>
      React.Rendered (React.Elem "div" None [] [React.Text "No documents yet."])
  | Some _ =>
      match ds with
      | JS.Arr items =>
          match mapM row items with
          | Some rows => React.Rendered (React.Items rows)
          | None => React.Throws
          end
      | _ => React.Throws
      end
  end.

(** The element the component returns. *)
Definition render (st : state) : React.outcome :=
  match listing (docs st) with
  | React.Rendered body =>
      React.Rendered
        (React.Elem "div" None [("className", "card")]
           [ React.Elem "h3" None [] [React.Text "📚 Documents"];
             body;
             React.Elem "button" None
               [("onClick", "load"); ("style", "marginTop:8")]
               [React.Text "Refresh"] ])
  | other => other
  end.

End Render.

(** An element the component function cannot make a row of: [null] or
    [undefined], or one whose [document_id] or [upload_date] has no
    conversion to text. *)
Definition unrenderable (d : JS.value) : bool :=
  JS.nullish d
  || negb (JS.printable (JS.get_opt d "upload_date"))
  || negb (JS.printable (JS.get_opt d "document_id")).

(** The mount effect, [useEffect(() => { load(); }, [])]: one [load] on
    the initial state. *)
Definition mount (net : network) : list effect * state := load net initial.

(** The state after a series of loads (the mount, then clicks on
    Refresh), each meeting the network as it is at that moment. *)
Definition after_loads (nets : list network) (st : state) : state :=
  foldl (fun s net => (load net s).2) st nets.

End DocumentList.

(** ** ChatInterface *)
Module ChatInterface.

(** [question] is the input's text; [answer] and [sources] hold what [ask]
    stored last. *)
Record state := { question : string; answer : JS.value; sources : JS.value }.

Definition initial : state :=
  {| question := ""; answer := JS.Str ""; sources := JS.Arr [] |}.

Inductive effect : Type :=
  | SetAnswer (v : JS.value)
  | SetSources (v : JS.value)
  | Fetch (r : request).

Definition setAnswer (v : JS.value) (st : state) : state :=
  {| question := question st; answer := v; sources := sources st |}.

Definition setSources (v : JS.value) (st : state) : state :=
  {| question := question st; answer := answer st; sources := v |}.

Definition ask_request (q : string) : request :=
  {| req_url := "/api/chat/ask";
     req_method := "POST";
     req_headers := [("Content-Type", "application/json")];
     req_body :=
       JsonText (JS.Obj [("question", JS.Str q); ("user_id", JS.Str "web")]) |}.

(** The two values the [try] block stores, or [None] when it throws before
    storing anything (the fetch or [res.json()] rejects, or [data] is
    [null]). *)
Definition try_ask (out : fetch_outcome) : option (JS.value * JS.value) :=
  match out with
  | Rejected | Responded _ None => None
  | Responded _ (Some data) =>
      a ← JS.get data "answer";
      s ← JS.get data "sources";
      Some (JS.or_else a (JS.Str "No answer"), JS.or_else s (JS.Arr []))
  end.

Definition ask (net : network) (st : state) : list effect * state :=
  if String.eqb (question st) "" then ([], st)       (* if (!question) return; *)
  else
    let req := ask_request (question st) in
    let '(a, s) :=
      match try_ask (net req) with
      | Some stored => stored
      | None => (JS.Str "Request failed", JS.Arr [])       (* catch (e) *)
      end in
    ([SetAnswer (JS.Str "Thinking..."); Fetch req; SetAnswer a; SetSources s],
     setSources s (setAnswer a (setAnswer (JS.Str "Thinking...") st))).

Definition requests (tr : list effect) : list request :=
  omap (fun e => match e with Fetch r => Some r | _ => None end) tr.

(** The arrow function under [sources.map((s,i) => ...)]. *)
Definition source_row (i : nat) (s : JS.value) : option React.node :=
  document_title ← JS.get s "document_title";
  chunk_text ← JS.get s "chunk_text";
  Some (React.Elem "div" (Some (JS.Num (JS.Int (Z.of_nat i)))) []
          [ React.Text "[";
            React.Expr document_title;
            React.Text "] — ";
            React.Expr chunk_text ]).

Fixpoint source_rows (i : nat) (items : list JS.value)
  : option (list React.node) :=
  match items with
  | [] => Some []
  | s :: rest =>
      r ← source_row i s;
      rs ← source_rows (S i) rest;
      Some (r :: rs)
  end.

(** [sources.length > 0 && (...)]: the operand on the left when it is
    [false], else the block; only an array has [map]. *)
Definition sources_block (srcs : JS.value) : React.outcome :=
  match JS.get srcs "length" with
  | None => React.Throws
  | Some len =>
      match JS.gt_zero len with
      | None => React.Unmodelled
      | Some false => React.Rendered (React.Expr (JS.Bool false))
      | Some true =>
          match srcs with
          | JS.Arr items =>
              match source_rows 0 items with
              | None => React.Throws
              | Some rows =>
                  React.Rendered
                    (React.Elem "div" None [("style", "marginTop:12")]
                       [ React.Elem "strong" None [] [React.Text "Sources:"];
                         React.Items rows ])
              end
          | _ => React.Throws
          end
      end
  end.

Definition render (st : state) : React.outcome :=
  match sources_block (sources st) with
  | React.Rendered block =>
      React.Rendered
        (React.Elem "div" None [("className", "card")]
           [ React.Elem "h3" None [] [React.Text "🤖 Chat"];
             React.Elem "input" None
               [("value", question st);
                ("onChange", "setQuestion(e.target.value)");
                ("placeholder", "Ask something about your papers");
                ("style", "width:100%;padding:8")] [];
             React.Elem "button" None
               [("onClick", "ask"); ("style", "marginTop:8")]
               [React.Text "Ask"];
             React.Elem "div" None [("style", "marginTop:12")]
               [ React.Elem "strong" None [] [React.Text "Answer:"];
                 React.Elem "div" None [] [React.Expr (answer st)] ];
             block ])
  | other => other
  end.

(** The input's [onChange], [(e) => setQuestion(e.target.value)]. *)
Definition onChange (typed : string) (st : state) : state :=
  {| question := typed; answer := answer st; sources := sources st |}.

(** What the user does to the component. *)
Inductive event : Type :=
  | Typed (text : string)
  | AskClicked (net : network).

Definition step (st : state) (e : event) : state :=
  match e with
  | Typed text => onChange text st
  | AskClicked net => (ask net st).2
  end.

Definition run (events : list event) (st : state) : state :=
  foldl step st events.

End ChatInterface.

(** ** ModernFrontend *)
Module ModernFrontend.

Record state := { activeTab : string; searchQuery : string }.

Definition initial : state := {| activeTab := "dashboard"; searchQuery := "" |}.

Definition setActiveTab (tab : string) (st : state) : state :=
  {| activeTab := tab; searchQuery := searchQuery st |}.

Definition setSearchQuery (text : string) (st : state) : state :=
  {| activeTab := activeTab st; searchQuery := text |}.

(** The [switch] over the status text; [case] compares with [===]. *)
Definition getStatusColor (status : string) : string :=
  if String.eqb status "In Progress" then "bg-blue-100 text-blue-700"
  else if String.eqb status "Planning" then "bg-yellow-100 text-yellow-700"
  else if String.eqb status "Completed" then "bg-green-100 text-green-700"
  else "bg-gray-100 text-gray-700".

(** The array the navigation maps over. *)
Definition tabs : list string := ["dashboard"; "projects"; "team"; "analytics"].

(** [toUpperCase] on one ASCII character. *)
Definition upper (c : ascii) : ascii :=
  let n := nat_of_ascii c in
  if Nat.leb 97 n && Nat.leb n 122 then ascii_of_nat (n - 32) else c.

(** [tab.charAt(0).toUpperCase() + tab.slice(1)], for a [tab] that is
    empty or starts with an ASCII character. *)
Definition tab_label (tab : string) : string :=
  match tab with
  | EmptyString => EmptyString
  | String c rest => String (upper c) rest
  end.

Definition active_class : string :=
  "px-6 py-2 rounded-lg font-medium transition-all bg-white text-blue-600 shadow-md".

Definition idle_class : string :=
  "px-6 py-2 rounded-lg font-medium transition-all text-gray-600 hover:text-gray-900".

(** The template literal under [className]. *)
Definition tab_class (active tab : string) : string :=
  "px-6 py-2 rounded-lg font-medium transition-all "
  +:+ (if String.eqb active tab
       then "bg-white text-blue-600 shadow-md"
       else "text-gray-600 hover:text-gray-900").

(** The arrow function under [.map((tab) => ...)]. *)
Definition tab_button (active tab : string) : React.node :=
  React.Elem "button" (Some (JS.Str tab))
    [("onClick", "setActiveTab(tab)"); ("className", tab_class active tab)]
    [React.Expr (JS.Str (tab_label tab))].

Definition nav (st : state) : React.node :=
  React.Elem "nav" None
    [("className",
      "flex space-x-2 bg-white/60 backdrop-blur-sm rounded-xl p-2 inline-flex")]
    [React.Items (tab_button (activeTab st) <$> tabs)].

(** What the user does: a click on the [i]-th button of the navigation,
    or typing in the search box. *)
Inductive event : Type :=
  | TabClicked (i : nat)
  | Searched (text : string).

Definition step (st : state) (e : event) : state :=
  match e with
  | TabClicked i =>
      match tabs !! i with
      | Some tab => setActiveTab tab st
      | None => st
      end
  | Searched text => setSearchQuery text st
  end.

Definition run (events : list event) (st : state) : state :=
  foldl step st events.

End ModernFrontend.

(** ** The collaborators behind the three routes *)
Module Api.

(** Modelled from the spec: the upload route is not among the sources; its
    answer is [{document_id, title, chunks_processed}] or a failure detail
    string. *)
Inductive upload_response : Type :=
  | UploadOk (document_id title : string) (chunks_processed : nat)
  | UploadFailed (detail : string).

(** Modelled from the spec: how an upload answer reaches the component,
    which tells the two apart by [res.ok] and looks for the failure text
    under [detail]. *)
Definition upload_wire (r : upload_response) : fetch_outcome :=
  match r with
  | UploadOk document_id title chunks_processed =>
      Responded true
        (Some (JS.Obj
                 [("document_id", JS.Str document_id);
                  ("title", JS.Str title);
                  ("chunks_processed",
                   JS.Num (JS.Int (Z.of_nat chunks_processed)))]))
  | UploadFailed detail =>
      Responded false (Some (JS.Obj [("detail", JS.Str detail)]))
  end.

(** Modelled from the spec: the listing route is not among the sources; it
    answers [{documents: [{document_id, title, upload_date, total_chunks}]}]. *)
Record document_entry := {
  document_id : string;
  title : string;
  upload_date : string;
  total_chunks : nat
}.

Definition document_json (d : document_entry) : JS.value :=
  JS.Obj [("document_id", JS.Str (document_id d));
          ("title", JS.Str (title d));
          ("upload_date", JS.Str (upload_date d));
          ("total_chunks", JS.Num (JS.Int (Z.of_nat (total_chunks d))))].

Definition listing_wire (ds : list document_entry) : fetch_outcome :=
  Responded true (Some (JS.Obj [("documents", JS.Arr (document_json <$> ds))])).

(** Modelled from the spec: the ask route is not among the sources; it
    accepts [{question, user_id}] and answers
    [{answer, sources: [{document_title, chunk_text, score}]}]. *)
Record ask_body := { question : string; user_id : string }.

Definition ask_body_json (b : ask_body) : JS.value :=
  JS.Obj [("question", JS.Str (question b)); ("user_id", JS.Str (user_id b))].

Record source := {
  document_title : string;
  chunk_text : string;
  score : JS.number
}.

Record ask_response := { answer : string; sources : list source }.

Definition source_json (s : source) : JS.value :=
  JS.Obj [("document_title", JS.Str (document_title s));
          ("chunk_text", JS.Str (chunk_text s));
          ("score", JS.Num (score s))].

Definition ask_wire (r : ask_response) : fetch_outcome :=
  Responded true
    (Some (JS.Obj [("answer", JS.Str (answer r));
                   ("sources", JS.Arr (source_json <$> sources r))])).

End Api.


(** * The ingestion-and-retrieval core *)

(** Modelled from the spec: the failures the core signals.  An empty
    retrieval is a valid result and has no constructor here;
    [EmbeddingFailed] is the one failure a query reports, a question that
    cannot be embedded. *)
Inductive failure : Type :=
  | ExtractionFailed
  | EmbeddingBackendUnavailable
  | IndexDimensionMismatch
  | IndexWriteConflict
  | SynthesisTimeout
  | EmbeddingFailed.

Inductive result (A : Type) : Type :=
  | Ok (a : A)
  | Err (e : failure).
Arguments Ok {A} a.
Arguments Err {A} e.

(** [ceil(a / b)] for a positive [b], on the integers. *)
Definition ceil_div (a b : Z) : Z := (- ((- a) / b))%Z.

(** [a] stands somewhere before [b] in [l]. *)
Definition stands_before {A : Type} (l : list A) (a b : A) : Prop :=
  exists l1 l2 l3, l = l1 ++ a :: l2 ++ b :: l3.

(** ** TextChunker *)
Module TextChunker.

(** Modelled from the spec: the chunker is not among the sources.  Its
    parameters are [chunk_size] and [overlap], the latter below the
    former. *)
Record config := { chunk_size : nat; overlap : nat }.

(** Modelled from the spec: the distance between the starts of two
    consecutive windows, [chunk_size - overlap]. *)
Definition stride (cfg : config) : nat := chunk_size cfg - overlap cfg.

(** Modelled from the spec: a chunk is a window of the extracted text with
    its ordinal [position]; its identifier within the document is that
    ordinal. *)
Record Chunk := { chunk_id : nat; position : nat; text : list ascii }.

(** Modelled from the spec: windows of [chunk_size] characters, the next
    one starting [chunk_size - overlap] characters after the last, until a
    window reaches the end of the text; that final window is cut at the
    end.  [fuel] bounds the number of windows; a text of [n] characters
    needs at most [n]. *)
Fixpoint windows (fuel : nat) (cfg : config) (start : nat)
    (extracted : list ascii) : list (list ascii) :=
  match fuel with
  | O => []
  | S fuel' =>
      let window := take (chunk_size cfg) (drop start extracted) in
      if decide (length extracted <= start + chunk_size cfg)
      then [window]
      else window :: windows fuel' cfg (start + stride cfg) extracted
  end.

(** Modelled from the spec: the chunks of an extracted text, in document
    order; a text without characters has none. *)
Definition chunk_text (cfg : config) (extracted : list ascii) : list Chunk :=
  match extracted with
  | [] => []
  | _ :: _ =>
      imap (fun p w => {| chunk_id := p; position := p; text := w |})
           (windows (length extracted) cfg 0 extracted)
  end.

Section Extraction.

(** Modelled from the spec: text extraction proper (reading a document's
    text layer) is a collaborator of the chunker: [None] when the document
    has no extractable text. *)
Variable extract_text : list Byte.byte -> option (list ascii).

(** Modelled from the spec: [extract_and_chunk(raw_bytes)], which signals
    [ExtractionFailed] and yields no chunk at all when extraction fails. *)
Definition extract_and_chunk (cfg : config) (raw_bytes : list Byte.byte)
  : result (list Chunk) :=
  match extract_text raw_bytes with
  | None => Err ExtractionFailed
  | Some extracted => Ok (chunk_text cfg extracted)
  end.

End Extraction.

(** The lengths of the windows that [windows] cuts, computed from the
    length of the text alone. *)
Fixpoint window_lengths (fuel : nat) (cfg : config) (start len : nat)
  : list nat :=
  match fuel with
  | O => []
  | S fuel' =>
      let n := chunk_size cfg `min` (len - start) in
      if decide (len <= start + chunk_size cfg)
      then [n]
      else n :: window_lengths fuel' cfg (start + stride cfg) len
  end.

End TextChunker.

(** ** EmbeddingProvider *)
Module Embedding.

(** Modelled from the spec: a fixed-length numeric vector.  Components
    are kept over the rationals: nothing stated here depends on rounding. *)
Definition vector := list Qc.

End Embedding.

(** ** VectorIndex *)
Module VectorIndex.

(** Modelled from the spec: the metadata schema of a stored record. *)
Record metadata := {
  document_id : string;
  chunk_text : string;
  title : string;
  upload_date : string
}.

(** Modelled from the spec: the persisted unit. *)
Record VectorRecord := {
  id : string;
  vector : Embedding.vector;
  meta : metadata
}.

(** Modelled from the spec: one hit of a query. *)
Record QueryResult := {
  chunk_id : string;
  similarity_score : Qc;
  result_metadata : metadata
}.

(** Modelled from the spec: [a] may stand before [b] in a ranking, as
    [b] does not score higher. *)
Definition outranks (a b : QueryResult) : Prop :=
  (similarity_score b <= similarity_score a)%Qc.

(** [h] has similarity [s]: the hits of one score are those that tie. *)
Definition scores (s : Qc) (h : QueryResult) : Prop := similarity_score h = s.

#[global] Instance scores_dec s h : Decision (scores s h).
Proof. unfold scores. apply _. Defined.

(** Modelled from the spec: the index, its dimension pinned, its records
    in the order they were inserted. *)
Record index := { dimension : nat; records : list VectorRecord }.

(** Modelled from the spec: a fresh index of the deployment's dimension. *)
Definition empty (dim : nat) : index := {| dimension := dim; records := [] |}.

(** Modelled from the spec: a record belongs to the document its metadata
    names. *)
Definition owned_by (d : string) (r : VectorRecord) : Prop :=
  document_id (meta r) = d.

#[global] Instance owned_by_dec d r : Decision (owned_by d r).
Proof. unfold owned_by. apply _. Defined.


(** Modelled from the spec: [delete(document_id)] removes every record of
    the document and does nothing when there is none. *)
Definition delete (d : string) (idx : index) : index :=
  {| dimension := dimension idx;
     records := filter (fun r => ~ owned_by d r) (records idx) |}.

(** Modelled from the spec: the vector has the index's pinned dimension. *)
Definition fits (idx : index) (r : VectorRecord) : bool :=
  bool_decide (length (vector r) = dimension idx).

(** Modelled from the spec: [insert(document_id, records)] first removes
    the document's records, then appends the new set; a vector of another
    dimension than the pinned one rejects the whole insert. *)
Definition insert (d : string) (rs : list VectorRecord) (idx : index)
  : result index :=
  if forallb (fits idx) rs
  then Ok {| dimension := dimension idx;
             records := records (delete d idx) ++ rs |}
  else Err IndexDimensionMismatch.

Section Query.

(** Modelled from the spec: the similarity metric, cosine.  Its
    arithmetic needs square roots and is left to the backend. *)
Variable cosine_similarity : Embedding.vector -> Embedding.vector -> Qc.

(** Modelled from the spec: the hit a record makes for a query vector. *)
Definition score_record (q : Embedding.vector) (r : VectorRecord)
  : QueryResult :=
  {| chunk_id := id r;
     similarity_score := cosine_similarity q (vector r);
     result_metadata := meta r |}.

(** Modelled from the spec: one step of the stable ranking.  [x] goes in
    front of the first hit that does not score strictly higher,
    so a hit never overtakes an equal one that was there before. *)
Fixpoint place (x : QueryResult) (ranked : list QueryResult)
  : list QueryResult :=
  match ranked with
  | [] => [x]
  | y :: rest =>
      if decide (similarity_score x < similarity_score y)%Qc
      then y :: place x rest
      else x :: y :: rest
  end.

(** Modelled from the spec: stable sort by descending score; the hits
    are placed from the last inserted to the first. *)
Definition rank (hits : list QueryResult) : list QueryResult :=
  foldr place [] hits.

(** Modelled from the spec: the records the filter keeps, in insertion
    order, each scored against the query vector. *)
Definition candidates (q : Embedding.vector)
    (keep : option (metadata -> bool)) (idx : index) : list QueryResult :=
  score_record q <$>
    match keep with
    | None => records idx
    | Some f => filter (fun r => f (meta r) = true) (records idx)
    end.

(** Modelled from the spec: [query(vector, top_k, optional filter)]. *)
Definition query (q : Embedding.vector) (top_k : nat)
    (keep : option (metadata -> bool)) (idx : index) : list QueryResult :=
  take top_k (rank (candidates q keep idx)).

End Query.

End VectorIndex.

(** ** RetrievalOrchestrator and AnswerSynthesizer *)
Module Retrieval.

(** Modelled from the spec: one cited source of an answer. *)
Record source := {
  document_title : string;
  source_text : string;
  score : Qc
}.

(** Modelled from the spec: an answer. *)
Record Answer := {
  text : string;
  sources : list source;
  degraded : bool
}.

(** Modelled from the spec: the configuration surface of a query. *)
Record settings := {
  top_k : nat;
  max_context_chars : nat;
  per_document_cap : option nat;
  retries : nat
}.

(** Modelled from the spec: the fixed answer when nothing was retrieved. *)
Definition no_relevant_information : Answer :=
  {| text := "no relevant information found"; sources := []; degraded := false |}.

(** Modelled from the spec: the chunk text and the document of a hit. *)
Definition hit_text (h : VectorIndex.QueryResult) : string :=
  VectorIndex.chunk_text (VectorIndex.result_metadata h).

Definition hit_document (h : VectorIndex.QueryResult) : string :=
  VectorIndex.document_id (VectorIndex.result_metadata h).

(** Modelled from the spec: deduplication, keeping the first hit of every
    [chunk_id]. *)
Fixpoint dedup (seen : list string) (hits : list VectorIndex.QueryResult)
  : list VectorIndex.QueryResult :=
  match hits with
  | [] => []
  | h :: rest =>
      if decide (VectorIndex.chunk_id h ∈ seen) then dedup seen rest
      else h :: dedup (VectorIndex.chunk_id h :: seen) rest
  end.

(** Modelled from the spec: the optional cap, at most [cap] hits of any
    one document. *)
Fixpoint cap_per_document (cap : nat) (taken : list string)
    (hits : list VectorIndex.QueryResult) : list VectorIndex.QueryResult :=
  match hits with
  | [] => []
  | h :: rest =>
      if decide (length (filter (fun d => d = hit_document h) taken) < cap)
      then h :: cap_per_document cap (hit_document h :: taken) rest
      else cap_per_document cap taken rest
  end.

(** Modelled from the spec: the context budget.  Hits are taken in order
    while they fit; a hit whose text would overflow the budget is left out
    whole. *)
Fixpoint within_budget (budget : nat) (hits : list VectorIndex.QueryResult)
  : list VectorIndex.QueryResult :=
  match hits with
  | [] => []
  | h :: rest =>
      if decide (String.length (hit_text h) <= budget)
      then h :: within_budget (budget - String.length (hit_text h)) rest
      else within_budget budget rest
  end.

(** Modelled from the spec: the context, the kept texts concatenated. *)
Definition context_of (hits : list VectorIndex.QueryResult) : string :=
  foldr (fun h acc => hit_text h +:+ acc) "" hits.

(** Modelled from the spec: the citation of a hit. *)
Definition source_of (h : VectorIndex.QueryResult) : source :=
  {| document_title := VectorIndex.title (VectorIndex.result_metadata h);
     source_text := hit_text h;
     score := VectorIndex.similarity_score h |}.

Section Pipeline.

Variable cosine_similarity : Embedding.vector -> Embedding.vector -> Qc.

(** Modelled from the spec: the embedding provider as the orchestrator
    meets it: [None] when the
    question cannot be embedded, the one failure a query reports. *)
Variable embed_question : string -> option Embedding.vector.

(** Modelled from the spec: the language model, by its reply to the
    [n]-th attempt at a prompt, [None] for a timeout or a transient
    failure. *)
Variable language_model : nat -> string -> option string.

(** Modelled from the spec: [retrieve(question, top_k, max_context_chars)]:
    the hits kept and the context assembled from them. *)
Definition retrieve (cfg : settings) (idx : VectorIndex.index)
    (question : string)
  : result (list VectorIndex.QueryResult * string) :=
  match embed_question question with
  | None => Err EmbeddingFailed
  | Some q =>
      let hits := VectorIndex.query cosine_similarity q (top_k cfg) None idx in
      let distinct := dedup [] hits in
      let diverse :=
        match per_document_cap cfg with
        | None => distinct
        | Some cap => cap_per_document cap [] distinct
        end in
      let kept := within_budget (max_context_chars cfg) diverse in
      Ok (kept, context_of kept)
  end.

(** Modelled from the spec: the grounded prompt. *)
Definition prompt (question context : string) : string :=
  "Answer only from the context below; do not state what it does not support."
  +:+ " Context: " +:+ context +:+ " Question: " +:+ question.

(** Modelled from the spec: retrying, the first reply among the attempts
    [n, n+1, ..., n+more]. *)
Fixpoint attempt (more n : nat) (p : string) : option string :=
  match language_model n p with
  | Some reply => Some reply
  | None =>
      match more with
      | O => None
      | S more' => attempt more' (S n) p
      end
  end.

(** Modelled from the spec: [synthesize(question, context, sources)]. *)
Definition synthesize (cfg : settings) (question context : string)
    (hits : list VectorIndex.QueryResult) : Answer :=
  match hits with
  | [] => no_relevant_information
  | top :: _ =>
      match attempt (retries cfg) 0 (prompt question context) with
      | Some reply =>
          {| text := reply; sources := source_of <$> hits; degraded := false |}
      | None =>
          {| text := hit_text top; sources := source_of <$> hits;
             degraded := true |}
      end
  end.

(** Modelled from the spec: a question end to end. *)
Definition answer_question (cfg : settings) (idx : VectorIndex.index)
    (question : string) : result Answer :=
  match retrieve cfg idx question with
  | Err e => Err e
  | Ok (hits, context) => Ok (synthesize cfg question context hits)
  end.

End Pipeline.

End Retrieval.

(** ** What the components are expected to show *)

(** What the component shows for an answer of the upload route. *)
Definition upload_status (r : Api.upload_response) : JS.value :=
  match r with
  | Api.UploadOk _ title chunks_processed =>
      JS.Str ("Uploaded: " ++ title
                ++ " (chunks: " ++ pretty (Z.of_nat chunks_processed) ++ ")")
  | Api.UploadFailed detail =>
      JS.Str (if String.eqb detail "" then "Upload failed" else detail)
  end.

(** The row shown for an entry of the listing route. *)
Definition entry_row (toLocaleString : JS.value -> string)
    (d : Api.document_entry) : React.node :=
  React.Elem "div" (Some (JS.Str (Api.document_id d))) []
    [ React.Elem "strong" None [] [React.Expr (JS.Str (Api.title d))];
      React.Text " — ";
      React.Expr (JS.Str (toLocaleString (JS.Str (Api.upload_date d))));
      React.Text " — chunks: ";
      React.Expr (JS.Num (JS.Int (Z.of_nat (Api.total_chunks d)))) ].

Definition documents_card (body : React.node) : React.node :=
  React.Elem "div" None [("className", "card")]
    [ React.Elem "h3" None [] [React.Text "📚 Documents"];
      body;
      React.Elem "button" None
        [("onClick", "load"); ("style", "marginTop:8")]
        [React.Text "Refresh"] ].

(** The row shown for the [i]-th source of an answer. *)
Definition source_view (i : nat) (s : Api.source) : React.node :=
  React.Elem "div" (Some (JS.Num (JS.Int (Z.of_nat i)))) []
    [ React.Text "[";
      React.Expr (JS.Str (Api.document_title s));
      React.Text "] — ";
      React.Expr (JS.Str (Api.chunk_text s)) ].

(** What the component shows in place of an answer text. *)
Definition shown_answer (a : string) : JS.value :=
  JS.Str (if String.eqb a "" then "No answer" else a).

Definition chat_card (q : string) (a : JS.value) (block : React.node)
  : React.node :=
  React.Elem "div" None [("className", "card")]
    [ React.Elem "h3" None [] [React.Text "🤖 Chat"];
      React.Elem "input" None
        [("value", q);
         ("onChange", "setQuestion(e.target.value)");
         ("placeholder", "Ask something about your papers");
         ("style", "width:100%;padding:8")] [];
      React.Elem "button" None
        [("onClick", "ask"); ("style", "marginTop:8")]
        [React.Text "Ask"];
      React.Elem "div" None [("style", "marginTop:12")]
        [ React.Elem "strong" None [] [React.Text "Answer:"];
          React.Elem "div" None [] [React.Expr a] ];
      block ].

Definition sources_view (srcs : list Api.source) : React.node :=
  match srcs with
  | [] => React.Expr (JS.Bool false)
  | _ =>
      React.Elem "div" None [("style", "marginTop:12")]
        [ React.Elem "strong" None [] [React.Text "Sources:"];
          React.Items (imap source_view srcs) ]
  end.


(** ** Sample data for the examples *)

(** A stand-in for the similarity metric on small examples: the dot
    product, which orders unit vectors as cosine does. *)
Definition dot (a b : Embedding.vector) : Qc :=
  foldr Qcplus 0%Qc (zip_with Qcmult a b).

Definition sample_record (i d t : string) (v : Embedding.vector)
  : VectorIndex.VectorRecord :=
  {| VectorIndex.id := i;
     VectorIndex.vector := v;
     VectorIndex.meta :=
       {| VectorIndex.document_id := d;
          VectorIndex.chunk_text := t;
          VectorIndex.title := "Paper " +:+ d;
          VectorIndex.upload_date := "2025-12-01" |} |}.

Definition sample_index : VectorIndex.index :=
  {| VectorIndex.dimension := 2;
     VectorIndex.records :=
       [ sample_record "a-0" "A" "gradient descent" [1; 0]%Qc;
         sample_record "a-1" "A" "learning rate" [0; 1]%Qc;
         sample_record "b-0" "B" "stochastic gradient" [1; 1]%Qc;
         sample_record "b-1" "B" "descent direction" [1; 0]%Qc;
         sample_record "b-2" "B" "steepest descent" [2; 0]%Qc ] |}.

(** * Properties *)

(** ** The components and the core on small inputs *)

Example onUpload_null_body :
  DocumentUpload.onUpload (fun _ => Responded true (Some JS.Null))
    {| DocumentUpload.file :=
         DocumentUpload.FileChosen {| file_name := "a.pdf"; file_content := "" |};
       DocumentUpload.status := JS.Str "" |}
  = ([DocumentUpload.SetStatus (JS.Str "Uploading...");
      DocumentUpload.Fetch
        (DocumentUpload.upload_request {| file_name := "a.pdf"; file_content := "" |});
      DocumentUpload.SetStatus (JS.Str "Upload failed")],
     {| DocumentUpload.file :=
          DocumentUpload.FileChosen {| file_name := "a.pdf"; file_content := "" |};
        DocumentUpload.status := JS.Str "Upload failed" |}).
Proof. reflexivity. Qed.

Example load_keeps_docs_when_fetch_rejects :
  DocumentList.load (fun _ => Rejected) DocumentList.initial
  = ([DocumentList.Fetch DocumentList.list_request], DocumentList.initial).
Proof. reflexivity. Qed.

Example ask_request_failed :
  (ChatInterface.ask (fun _ => Rejected)
     {| ChatInterface.question := "Why?";
        ChatInterface.answer := JS.Str "";
        ChatInterface.sources := JS.Arr [] |}).2
  = {| ChatInterface.question := "Why?";
       ChatInterface.answer := JS.Str "Request failed";
       ChatInterface.sources := JS.Arr [] |}.
Proof. reflexivity. Qed.

Example template_literal_of_missing_member :
  DocumentUpload.try_upload (Responded true (Some (JS.Obj [("title", JS.Str "T")])))
  = JS.Str "Uploaded: T (chunks: undefined)".
Proof. reflexivity. Qed.

Example chunk_text_small :
  TextChunker.text
    <$> TextChunker.chunk_text
          {| TextChunker.chunk_size := 4; TextChunker.overlap := 2 |}
          (String.list_ascii_of_string "abcdefg")
  = String.list_ascii_of_string <$> ["abcd"; "cdef"; "efg"].
Proof. reflexivity. Qed.

Example query_breaks_ties_by_insertion :
  VectorIndex.chunk_id
    <$> VectorIndex.query dot [1; 0]%Qc 4 None sample_index
  = ["b-2"; "a-0"; "b-0"; "b-1"].
Proof. vm_compute. reflexivity. Qed.

Example insert_rejects_other_dimension :
  VectorIndex.insert "C" [sample_record "c-0" "C" "three numbers" [1; 0; 0]%Qc]
    sample_index
  = Err IndexDimensionMismatch.
Proof. reflexivity. Qed.

Example retrieve_within_budget :
  Retrieval.retrieve dot (fun _ => Some [1; 0]%Qc)
    {| Retrieval.top_k := 4; Retrieval.max_context_chars := 40;
       Retrieval.per_document_cap := Some 1; Retrieval.retries := 2 |}
    sample_index "Which method?"
  = Ok (VectorIndex.score_record dot [1; 0]%Qc
          <$> [ sample_record "b-2" "B" "steepest descent" [2; 0]%Qc;
                sample_record "a-0" "A" "gradient descent" [1; 0]%Qc ],
        "steepest descentgradient descent").
Proof. vm_compute. reflexivity. Qed.

Example unembedded_question_fails :
  Retrieval.answer_question dot (fun _ => None) (fun _ _ => None)
    {| Retrieval.top_k := 4; Retrieval.max_context_chars := 40;
       Retrieval.per_document_cap := None; Retrieval.retries := 2 |}
    (VectorIndex.empty 2) "Which method?"
  = Err EmbeddingFailed.
Proof. reflexivity. Qed.

Example synthesis_degrades_after_retries :
  Retrieval.synthesize (fun _ _ => None)
    {| Retrieval.top_k := 1; Retrieval.max_context_chars := 40;
       Retrieval.per_document_cap := None; Retrieval.retries := 2 |}
    "Which method?" "gradient descent"
    [VectorIndex.score_record dot [1; 0]%Qc
       (sample_record "a-0" "A" "gradient descent" [1; 0]%Qc)]
  = {| Retrieval.text := "gradient descent";
       Retrieval.sources :=
         [{| Retrieval.document_title := "Paper A";
             Retrieval.source_text := "gradient descent";
             Retrieval.score := 1%Qc |}];
       Retrieval.degraded := true |}.
Proof. vm_compute. reflexivity. Qed.


(** ** DocumentUpload *)

Lemma after_json_reads (ok : bool) (data data' : JS.value) :
  (if ok
   then JS.get data "title" = JS.get data' "title"
        /\ JS.get data "chunks_processed" = JS.get data' "chunks_processed"
   else JS.get_opt data "detail" = JS.get_opt data' "detail") ->
  DocumentUpload.after_json ok data = DocumentUpload.after_json ok data'.
Proof.
  unfold DocumentUpload.after_json. destruct ok; simpl.
  - intros [-> ->]. reflexivity.
  - intros ->. reflexivity.
Qed.

Lemma or_else_detail (d : string) :
  JS.or_else (JS.Str d) (JS.Str "Upload failed")
  = JS.Str (if String.eqb d "" then "Upload failed" else d).
Proof. unfold JS.or_else; simpl. destruct (String.eqb d ""); reflexivity. Qed.

(** C10: with no file selected ([file] is [null]) [onUpload] performs no
    effect at all, so no network request, and leaves [file] and [status]
    as they were. *)
Theorem onUpload_without_file (net : network) (st : DocumentUpload.state) :
  DocumentUpload.file st = DocumentUpload.FileNull ->
  DocumentUpload.onUpload net st = ([], st)
  /\ DocumentUpload.requests (DocumentUpload.onUpload net st).1 = [].
Proof.
  intros Hnull. unfold DocumentUpload.onUpload. rewrite Hnull. split; reflexivity.
Qed.

Lemma onUpload_without_file_witness :
  let st := {| DocumentUpload.file := DocumentUpload.FileNull;
               DocumentUpload.status := JS.Str "Uploaded: a.pdf (chunks: 3)" |} in
  let net := fun _ : request => Responded true (Some JS.Null) in
  DocumentUpload.onUpload net st = ([], st)
  /\ DocumentUpload.requests (DocumentUpload.onUpload net st).1 = [].
Proof. intros st net. apply (onUpload_without_file net st). reflexivity. Defined.

(** C7: an answer of the upload route is a success object with the members
    [document_id], [title] and [chunks_processed], or a failure carrying a
    detail string; for a chosen file the component posts it and ends with a
    status built from [title] and [chunks_processed] on success and from the
    detail string on failure (the fixed text when that string is empty);
    and on any body the status depends on those members alone. *)
Theorem onUpload_reads_response
    (f : File) (s0 : JS.value) (net : network) (r : Api.upload_response) :
  net (DocumentUpload.upload_request f) = Api.upload_wire r ->
  (match r with
   | Api.UploadOk document_id title chunks_processed =>
       exists data, Api.upload_wire r = Responded true (Some data)
         /\ JS.get data "document_id" = Some (JS.Str document_id)
         /\ JS.get data "title" = Some (JS.Str title)
         /\ JS.get data "chunks_processed"
            = Some (JS.Num (JS.Int (Z.of_nat chunks_processed)))
   | Api.UploadFailed detail =>
       exists data, Api.upload_wire r = Responded false (Some data)
         /\ JS.get data "detail" = Some (JS.Str detail)
   end)
  /\ DocumentUpload.onUpload net
       {| DocumentUpload.file := DocumentUpload.FileChosen f;
          DocumentUpload.status := s0 |}
     = ([DocumentUpload.SetStatus (JS.Str "Uploading...");
         DocumentUpload.Fetch (DocumentUpload.upload_request f);
         DocumentUpload.SetStatus (upload_status r)],
        {| DocumentUpload.file := DocumentUpload.FileChosen f;
           DocumentUpload.status := upload_status r |})
  /\ (forall data data',
        JS.get data "title" = JS.get data' "title" ->
        JS.get data "chunks_processed" = JS.get data' "chunks_processed" ->
        DocumentUpload.try_upload (Responded true (Some data))
        = DocumentUpload.try_upload (Responded true (Some data')))
  /\ (forall data data',
        JS.get_opt data "detail" = JS.get_opt data' "detail" ->
        DocumentUpload.try_upload (Responded false (Some data))
        = DocumentUpload.try_upload (Responded false (Some data'))).
Proof.
  intros Hnet. split; [| split; [| split]].
  - destruct r; eexists; repeat split; reflexivity.
  - unfold DocumentUpload.onUpload; simpl. rewrite Hnet.
    destruct r as [d t n | d]; simpl.
    + reflexivity.
    + unfold DocumentUpload.after_json; simpl.
      change (JS.get_opt _ _) with (JS.Str d). rewrite or_else_detail.
      reflexivity.
  - intros data data' Ht Hc. unfold DocumentUpload.try_upload.
    rewrite (after_json_reads true data data'); [reflexivity | auto].
  - intros data data' Hd. unfold DocumentUpload.try_upload.
    rewrite (after_json_reads false data data'); [reflexivity | auto].
Qed.

Lemma onUpload_reads_response_witness :
  let f := {| file_name := "paper-a.pdf"; file_content := "%PDF-1.7" |} in
  let r := Api.UploadOk "doc-1" "Paper A" 6 in
  let net := fun _ : request => Api.upload_wire r in
  net (DocumentUpload.upload_request f) = Api.upload_wire r
  /\ DocumentUpload.status
       (DocumentUpload.onUpload net
          {| DocumentUpload.file := DocumentUpload.FileChosen f;
             DocumentUpload.status := JS.Str "" |}).2
     = JS.Str "Uploaded: Paper A (chunks: 6)".
Proof.
  intros f r net. split; [reflexivity |].
  destruct (onUpload_reads_response f (JS.Str "") net r eq_refl)
    as (_ & Hrun & _).
  rewrite Hrun. reflexivity.
Defined.

(** ** DocumentList *)

Lemma rows_of_entries (toLocaleString : JS.value -> string)
    (ds : list Api.document_entry) :
  mapM (DocumentList.row toLocaleString) (Api.document_json <$> ds)
  = Some (entry_row toLocaleString <$> ds).
Proof.
  induction ds as [| d ds IH]; [reflexivity |].
  rewrite fmap_cons. cbn [mapM]. rewrite IH. reflexivity.
Qed.

Lemma row_reads (toLocaleString : JS.value -> string) (d d' : JS.value) :
  JS.get d "document_id" = JS.get d' "document_id" ->
  JS.get d "title" = JS.get d' "title" ->
  JS.get d "upload_date" = JS.get d' "upload_date" ->
  JS.get d "total_chunks" = JS.get d' "total_chunks" ->
  DocumentList.row toLocaleString d = DocumentList.row toLocaleString d'.
Proof.
  intros Hi Ht Hu Hc. unfold DocumentList.row.
  rewrite Hi, Ht, Hu, Hc. reflexivity.
Qed.

(** C8: an answer of the listing route is an object whose [documents]
    member is a list of objects, each with the members [document_id],
    [title], [upload_date] and [total_chunks]; after [load] the component
    holds that list and renders one row per entry, keyed by [document_id]
    and showing [title], the formatted [upload_date] and [total_chunks];
    and on any element a row depends on those four members alone. *)
Theorem document_list_renders_entries
    (toLocaleString : JS.value -> string) (net : network)
    (ds : list Api.document_entry) (st : DocumentList.state) :
  net DocumentList.list_request = Api.listing_wire ds ->
  (exists data,
      Api.listing_wire ds = Responded true (Some data)
      /\ JS.get data "documents" = Some (JS.Arr (Api.document_json <$> ds))
      /\ Forall (fun d =>
           JS.get (Api.document_json d) "document_id"
             = Some (JS.Str (Api.document_id d))
           /\ JS.get (Api.document_json d) "title"
             = Some (JS.Str (Api.title d))
           /\ JS.get (Api.document_json d) "upload_date"
             = Some (JS.Str (Api.upload_date d))
           /\ JS.get (Api.document_json d) "total_chunks"
             = Some (JS.Num (JS.Int (Z.of_nat (Api.total_chunks d))))) ds)
  /\ DocumentList.load net st
     = ([DocumentList.Fetch DocumentList.list_request;
         DocumentList.SetDocs (JS.Arr (Api.document_json <$> ds))],
        {| DocumentList.docs := JS.Arr (Api.document_json <$> ds) |})
  /\ DocumentList.render toLocaleString (DocumentList.load net st).2
     = React.Rendered
         (documents_card
            (match ds with
             | [] => React.Elem "div" None [] [React.Text "No documents yet."]
             | _ => React.Items (entry_row toLocaleString <$> ds)
             end))
  /\ (forall d d',
        JS.get d "document_id" = JS.get d' "document_id" ->
        JS.get d "title" = JS.get d' "title" ->
        JS.get d "upload_date" = JS.get d' "upload_date" ->
        JS.get d "total_chunks" = JS.get d' "total_chunks" ->
        DocumentList.row toLocaleString d = DocumentList.row toLocaleString d').
Proof.
  intros Hnet.
  assert (Hload : DocumentList.load net st
     = ([DocumentList.Fetch DocumentList.list_request;
         DocumentList.SetDocs (JS.Arr (Api.document_json <$> ds))],
        {| DocumentList.docs := JS.Arr (Api.document_json <$> ds) |})).
  { unfold DocumentList.load. rewrite Hnet. reflexivity. }
  split; [| split; [exact Hload | split]].
  - eexists. split; [reflexivity |]. split; [reflexivity |].
    apply Forall_forall. intros d _. repeat split; reflexivity.
  - rewrite Hload. unfold DocumentList.render, DocumentList.listing.
    cbn [snd DocumentList.docs].
    destruct ds as [| d ds]; [reflexivity |].
    assert (Hlen : JS.get (JS.Arr (Api.document_json <$> d :: ds)) "length"
                   = Some (JS.Num (JS.Int (Z.pos (Pos.of_succ_nat
                                       (length (Api.document_json <$> ds))))))).
    { reflexivity. }
    rewrite Hlen, rows_of_entries. reflexivity.
  - apply row_reads.
Qed.

Lemma document_list_renders_entries_witness :
  let toLocaleString := fun v : JS.value => JS.to_string v in
  let ds := [ {| Api.document_id := "doc-1"; Api.title := "Paper A";
                 Api.upload_date := "2025-12-01T10:00:00";
                 Api.total_chunks := 6 |} ] in
  let net := fun _ : request => Api.listing_wire ds in
  net DocumentList.list_request = Api.listing_wire ds
  /\ DocumentList.render toLocaleString
       (DocumentList.load net DocumentList.initial).2
     = React.Rendered
         (documents_card
            (React.Items
               [React.Elem "div" (Some (JS.Str "doc-1")) []
                  [ React.Elem "strong" None [] [React.Expr (JS.Str "Paper A")];
                    React.Text " — ";
                    React.Expr (JS.Str "2025-12-01T10:00:00");
                    React.Text " — chunks: ";
                    React.Expr (JS.Num (JS.Int 6)) ]])).
Proof.
  intros toLocaleString ds net. split; [reflexivity |].
  destruct (document_list_renders_entries toLocaleString net ds
              DocumentList.initial eq_refl) as (_ & _ & Hrender & _).
  rewrite Hrender. reflexivity.
Defined.

(** ** ChatInterface *)

Lemma source_rows_of_sources (i : nat) (srcs : list Api.source) :
  ChatInterface.source_rows i (Api.source_json <$> srcs)
  = Some (imap (fun j => source_view (i + j)) srcs).
Proof.
  revert i. induction srcs as [| s srcs IH]; intros i; [reflexivity |].
  rewrite fmap_cons. cbn [ChatInterface.source_rows].
  rewrite IH.
  change (ChatInterface.source_row i (Api.source_json s))
    with (Some (source_view i s)).
  cbn [mbind option_bind imap]. rewrite Nat.add_0_r. do 2 f_equal.
  apply imap_ext. intros j x _. cbn. f_equal. lia.
Qed.

Lemma shown_answer_or_else (a : string) :
  JS.or_else (JS.Str a) (JS.Str "No answer") = shown_answer a.
Proof.
  unfold JS.or_else, shown_answer; simpl. destruct (String.eqb a ""); reflexivity.
Qed.

Lemma sources_block_of_sources (srcs : list Api.source) :
  ChatInterface.sources_block (JS.Arr (Api.source_json <$> srcs))
  = React.Rendered (sources_view srcs).
Proof.
  destruct srcs as [| s srcs]; [reflexivity |].
  unfold ChatInterface.sources_block.
  change (JS.get _ "length")
    with (Some (JS.Num (JS.Int (Z.pos (Pos.of_succ_nat
                                  (length (Api.source_json <$> srcs))))))).
  cbn [JS.gt_zero Z.ltb Z.compare].
  rewrite (source_rows_of_sources 0 (s :: srcs)). reflexivity.
Qed.

(** C9, amended: for every question but the empty one, [ask] posts a body
    with exactly the members [question] and [user_id]; an answer of the ask
    route has an [answer] member and a [sources] list whose elements have
    [document_title], [chunk_text] and [score]; the component then shows the
    answer (the fixed text [No answer] when it is empty) and, for every
    source, its [document_title] and [chunk_text], the row not depending on
    [score] or any other member. *)
Theorem ask_posts_question_and_shows_answer
    (net : network) (r : Api.ask_response) (st : ChatInterface.state) :
  ChatInterface.question st <> "" ->
  net (ChatInterface.ask_request (ChatInterface.question st)) = Api.ask_wire r ->
  let q := ChatInterface.question st in
  let stored := {| ChatInterface.question := q;
                   ChatInterface.answer := shown_answer (Api.answer r);
                   ChatInterface.sources :=
                     JS.Arr (Api.source_json <$> Api.sources r) |} in
  req_body (ChatInterface.ask_request q)
    = JsonText (Api.ask_body_json {| Api.question := q; Api.user_id := "web" |})
  /\ ChatInterface.requests (ChatInterface.ask net st).1
     = [ChatInterface.ask_request q]
  /\ (exists data,
        Api.ask_wire r = Responded true (Some data)
        /\ JS.get data "answer" = Some (JS.Str (Api.answer r))
        /\ JS.get data "sources"
           = Some (JS.Arr (Api.source_json <$> Api.sources r))
        /\ Forall (fun s =>
             JS.get (Api.source_json s) "document_title"
               = Some (JS.Str (Api.document_title s))
             /\ JS.get (Api.source_json s) "chunk_text"
               = Some (JS.Str (Api.chunk_text s))
             /\ JS.get (Api.source_json s) "score"
               = Some (JS.Num (Api.score s))) (Api.sources r))
  /\ (ChatInterface.ask net st).2 = stored
  /\ ChatInterface.render stored
     = React.Rendered
         (chat_card q (shown_answer (Api.answer r)) (sources_view (Api.sources r)))
  /\ (forall i s s',
        JS.get s "document_title" = JS.get s' "document_title" ->
        JS.get s "chunk_text" = JS.get s' "chunk_text" ->
        ChatInterface.source_row i s = ChatInterface.source_row i s').
Proof.
  intros Hq Hnet q stored.
  assert (Heqb : String.eqb (ChatInterface.question st) "" = false).
  { apply String.eqb_neq. exact Hq. }
  assert (Hrun : ChatInterface.ask net st
    = ([ChatInterface.SetAnswer (JS.Str "Thinking...");
        ChatInterface.Fetch (ChatInterface.ask_request q);
        ChatInterface.SetAnswer (shown_answer (Api.answer r));
        ChatInterface.SetSources (JS.Arr (Api.source_json <$> Api.sources r))],
       stored)).
  { unfold ChatInterface.ask. rewrite Heqb, Hnet.
    unfold Api.ask_wire, ChatInterface.try_ask.
    change (JS.get _ "answer") with (Some (JS.Str (Api.answer r))).
    change (JS.get _ "sources")
      with (Some (JS.Arr (Api.source_json <$> Api.sources r))).
    cbn [mbind option_bind]. rewrite shown_answer_or_else. reflexivity. }
  split; [reflexivity |].
  split; [rewrite Hrun; reflexivity |].
  split.
  { eexists. split; [reflexivity |]. split; [reflexivity |].
    split; [reflexivity |].
    apply Forall_forall. intros s _. repeat split; reflexivity. }
  split; [rewrite Hrun; reflexivity |].
  split.
  { unfold ChatInterface.render. cbn [ChatInterface.sources stored].
    rewrite sources_block_of_sources. reflexivity. }
  intros i s s' Ht Hc. unfold ChatInterface.source_row. rewrite Ht, Hc.
  reflexivity.
Qed.

Lemma ask_posts_question_and_shows_answer_witness :
  let r := {| Api.answer := "Gradient descent.";
              Api.sources := [ {| Api.document_title := "Paper A";
                                  Api.chunk_text := "We use gradient descent";
                                  Api.score := JS.Dec "0.8731" |} ] |} in
  let net := fun _ : request => Api.ask_wire r in
  let st := {| ChatInterface.question := "What optimization method is used?";
               ChatInterface.answer := JS.Str "";
               ChatInterface.sources := JS.Arr [] |} in
  ChatInterface.question st <> ""
  /\ ChatInterface.requests (ChatInterface.ask net st).1
     = [ {| req_url := "/api/chat/ask";
            req_method := "POST";
            req_headers := [("Content-Type", "application/json")];
            req_body :=
              JsonText
                (JS.Obj [("question", JS.Str "What optimization method is used?");
                         ("user_id", JS.Str "web")]) |} ]
  /\ ChatInterface.answer (ChatInterface.ask net st).2
     = JS.Str "Gradient descent.".
Proof.
  intros r net st.
  assert (Hq : ChatInterface.question st <> "") by discriminate.
  split; [exact Hq |].
  destruct (ask_posts_question_and_shows_answer net r st Hq eq_refl)
    as (_ & Hreq & _ & Hst & _).
  split; [rewrite Hreq; reflexivity | rewrite Hst; reflexivity].
Defined.

(** C9 as stated fails on two inputs: with the empty question [ask]
    returns at its guard and the ask route is not invoked at all, and an
    answer whose text is empty is shown as [No answer]. *)
Lemma ask_empty_question_sends_nothing :
  let r := {| Api.answer := "Gradient descent."; Api.sources := [] |} in
  let net := fun _ : request => Api.ask_wire r in
  let st := {| ChatInterface.question := "";
               ChatInterface.answer := JS.Str "";
               ChatInterface.sources := JS.Arr [] |} in
  let silent := {| Api.answer := ""; Api.sources := [] |} in
  let asked := {| ChatInterface.question := "Anything?";
                  ChatInterface.answer := JS.Str "";
                  ChatInterface.sources := JS.Arr [] |} in
  ChatInterface.ask net st = ([], st)
  /\ ChatInterface.requests (ChatInterface.ask net st).1 = []
  /\ ChatInterface.answer
       (ChatInterface.ask (fun _ => Api.ask_wire silent) asked).2
     = JS.Str "No answer"
  /\ ChatInterface.answer
       (ChatInterface.ask (fun _ => Api.ask_wire silent) asked).2
     <> JS.Str (Api.answer silent).
Proof. repeat split; try reflexivity. discriminate. Qed.

(** ** DocumentUpload: failure paths, the file input, repeated uploads *)

Lemma get_none_nullish (v : JS.value) (k : string) :
  JS.get v k = None <-> JS.nullish v = true.
Proof. destruct v; cbn; split; intros H; try discriminate; reflexivity. Qed.

Lemma get_opt_nullish (v : JS.value) (k : string) :
  JS.nullish v = true -> JS.get_opt v k = JS.Undefined.
Proof. destruct v; cbn; intros H; try discriminate; reflexivity. Qed.

Lemma or_else_truthy (a b : JS.value) : JS.truthy (JS.or_else a b) = JS.truthy a || JS.truthy b.
Proof. unfold JS.or_else. destruct (JS.truthy a) eqn:Ha; cbn; [exact Ha | reflexivity]. Qed.

Lemma try_upload_silent (out : fetch_outcome) :
  DocumentUpload.fails_silently out = true ->
  DocumentUpload.try_upload out = JS.Str "Upload failed".
Proof.
  destruct out as [| ok [data |]]; cbn; [reflexivity | | reflexivity].
  destruct ok; cbn.
  - intros Hnull. unfold DocumentUpload.after_json; cbn.
    apply (get_none_nullish data "title") in Hnull. rewrite Hnull. reflexivity.
  - intros Hfalsy. unfold DocumentUpload.after_json, JS.or_else; cbn.
    apply negb_true_iff in Hfalsy. rewrite Hfalsy. reflexivity.
Qed.

(** X1: when an upload fails without a text of its own (the fetch rejects, the
    body is not JSON or is [null], or the response is not [ok] and carries
    no truthy [detail]), the component still sends its one request, ends
    with the status [Upload failed], keeps the chosen file, and the card
    shows that text. *)
Theorem onUpload_silent_failure (f : File) (s0 : JS.value) (net : network) :
  DocumentUpload.fails_silently (net (DocumentUpload.upload_request f)) = true ->
  let st := {| DocumentUpload.file := DocumentUpload.FileChosen f;
               DocumentUpload.status := s0 |} in
  DocumentUpload.onUpload net st
  = ([DocumentUpload.SetStatus (JS.Str "Uploading...");
      DocumentUpload.Fetch (DocumentUpload.upload_request f);
      DocumentUpload.SetStatus (JS.Str "Upload failed")],
     {| DocumentUpload.file := DocumentUpload.FileChosen f;
        DocumentUpload.status := JS.Str "Upload failed" |})
  /\ DocumentUpload.render (DocumentUpload.onUpload net st).2
     = React.Elem "div" None [("className", "card")]
         [ React.Elem "h3" None [] [React.Text "📤 Upload PDF"];
           React.Elem "input" None
             [("type", "file"); ("accept", "application/pdf");
              ("onChange", "setFile(e.target.files[0])")] [];
           React.Elem "button" None
             [("onClick", "onUpload"); ("style", "marginLeft:8")]
             [React.Text "Upload"];
           React.Elem "div" None [] [React.Expr (JS.Str "Upload failed")] ].
Proof.
  intros Hfail st.
  assert (Hrun : DocumentUpload.onUpload net st
    = ([DocumentUpload.SetStatus (JS.Str "Uploading...");
        DocumentUpload.Fetch (DocumentUpload.upload_request f);
        DocumentUpload.SetStatus (JS.Str "Upload failed")],
       {| DocumentUpload.file := DocumentUpload.FileChosen f;
          DocumentUpload.status := JS.Str "Upload failed" |})).
  { unfold DocumentUpload.onUpload, st; cbn [DocumentUpload.file].
    rewrite (try_upload_silent _ Hfail). reflexivity. }
  split; [exact Hrun |]. rewrite Hrun. reflexivity.
Qed.

Lemma onUpload_silent_failure_witness :
  let f := {| file_name := "paper-a.pdf"; file_content := "%PDF-1.7" |} in
  let net := fun _ : request =>
               Responded false (Some (JS.Obj [("error", JS.Str "too large")])) in
  DocumentUpload.fails_silently (net (DocumentUpload.upload_request f)) = true
  /\ DocumentUpload.status
       (DocumentUpload.onUpload net
          {| DocumentUpload.file := DocumentUpload.FileChosen f;
             DocumentUpload.status := JS.Str "" |}).2
     = JS.Str "Upload failed".
Proof.
  intros f net. split; [reflexivity |].
  rewrite (proj1 (onUpload_silent_failure f (JS.Str "") net eq_refl)).
  reflexivity.
Defined.

Lemma plain_printable (v : JS.value) : JS.plain v = true -> JS.printable v = true.
Proof. destruct v; cbn; intros H; try discriminate; reflexivity. Qed.

(** X2: an [ok] response with a body that is not [null] is reported as an
    upload without any check of its members: when [title] and
    [chunks_processed] are missing, [null], booleans or strings, the status
    is the template filled with their texts, and for a body without these
    members it reads [Uploaded: undefined (chunks: undefined)]. *)
Theorem onUpload_ok_reports_upload
    (f : File) (s0 : JS.value) (net : network) (data : JS.value) :
  net (DocumentUpload.upload_request f) = Responded true (Some data) ->
  JS.nullish data = false ->
  JS.plain (JS.get_opt data "title") = true ->
  JS.plain (JS.get_opt data "chunks_processed") = true ->
  let st' := (DocumentUpload.onUpload net
                {| DocumentUpload.file := DocumentUpload.FileChosen f;
                   DocumentUpload.status := s0 |}).2 in
  DocumentUpload.status st'
    = JS.Str ("Uploaded: " ++ JS.to_string (JS.get_opt data "title")
                ++ " (chunks: "
                ++ JS.to_string (JS.get_opt data "chunks_processed") ++ ")")
  /\ (JS.get_opt data "title" = JS.Undefined ->
      JS.get_opt data "chunks_processed" = JS.Undefined ->
      DocumentUpload.status st' = JS.Str "Uploaded: undefined (chunks: undefined)").
Proof.
  intros Hnet Hdata Ht Hc st'.
  assert (Hstatus : DocumentUpload.status st'
    = JS.Str ("Uploaded: " ++ JS.to_string (JS.get_opt data "title")
                ++ " (chunks: "
                ++ JS.to_string (JS.get_opt data "chunks_processed") ++ ")")).
  { unfold st', DocumentUpload.onUpload; cbn [DocumentUpload.file].
    rewrite Hnet. cbn [snd DocumentUpload.setStatus DocumentUpload.status
                       DocumentUpload.try_upload].
    unfold DocumentUpload.after_json; cbn [negb].
    apply plain_printable in Ht, Hc. unfold JS.get_opt in *.
    destruct (JS.get data "title") as [title |] eqn:Htitle;
      [| apply get_none_nullish in Htitle; congruence].
    destruct (JS.get data "chunks_processed") as [chunks |] eqn:Hchunks;
      [| apply get_none_nullish in Hchunks; congruence].
    cbn in Ht, Hc |- *. rewrite Ht, Hc. reflexivity. }
  split; [exact Hstatus |].
  intros Hta Hca. rewrite Hstatus, Hta, Hca. reflexivity.
Qed.

Lemma onUpload_ok_reports_upload_witness :
  let f := {| file_name := "paper-a.pdf"; file_content := "%PDF-1.7" |} in
  let data := JS.Obj [("message", JS.Str "stored")] in
  let net := fun _ : request => Responded true (Some data) in
  net (DocumentUpload.upload_request f) = Responded true (Some data)
  /\ JS.nullish data = false
  /\ JS.plain (JS.get_opt data "title") = true
  /\ JS.plain (JS.get_opt data "chunks_processed") = true
  /\ DocumentUpload.status
       (DocumentUpload.onUpload net
          {| DocumentUpload.file := DocumentUpload.FileChosen f;
             DocumentUpload.status := JS.Str "" |}).2
     = JS.Str "Uploaded: undefined (chunks: undefined)".
Proof.
  intros f data net. split; [reflexivity |]. split; [reflexivity |].
  split; [reflexivity |]. split; [reflexivity |].
  exact (proj2 (onUpload_ok_reports_upload f (JS.Str "") net data
                  eq_refl eq_refl eq_refl eq_refl) eq_refl eq_refl).
Defined.

(** X3: whatever the network does, the status an upload leaves is a string,
    with one exception: a response that is not [ok] whose body has a truthy
    [detail] stores that [detail] as it came, string or not. *)
Theorem onUpload_status_is_text_unless_detail
    (f : File) (s0 : JS.value) (net : network) :
  let st' := (DocumentUpload.onUpload net
                {| DocumentUpload.file := DocumentUpload.FileChosen f;
                   DocumentUpload.status := s0 |}).2 in
  (exists s, DocumentUpload.status st' = JS.Str s)
  \/ (exists data,
        net (DocumentUpload.upload_request f) = Responded false (Some data)
        /\ DocumentUpload.status st' = JS.get_opt data "detail"
        /\ JS.truthy (JS.get_opt data "detail") = true).
Proof.
  intros st'. unfold st', DocumentUpload.onUpload; cbn [DocumentUpload.file snd].
  cbn [DocumentUpload.setStatus DocumentUpload.status].
  destruct (net (DocumentUpload.upload_request f)) as [| ok [data |]] eqn:Hnet;
    cbn [DocumentUpload.try_upload]; [left; eauto | | left; eauto].
  destruct ok; unfold DocumentUpload.after_json; cbn [negb].
  - destruct (JS.get data "title") as [title |]; cbn; [| left; eauto].
    destruct (JS.get data "chunks_processed") as [chunks |]; cbn;
      [| left; eauto].
    destruct (JS.printable title && JS.printable chunks); left; eauto.
  - unfold JS.or_else.
    destruct (JS.truthy (JS.get_opt data "detail")) eqn:Hdetail.
    + right. exists data. auto.
    + left. eauto.
Qed.

(** X4: the file input and the upload button together: with the picker
    dismissed ([files] empty) the button sends nothing, even after an
    earlier choice; with a selection it posts the first file of the
    selection and no other. *)
Theorem onChange_then_onUpload
    (net : network) (st : DocumentUpload.state)
    (f g : File) (others : list File) :
  DocumentUpload.onUpload net (DocumentUpload.onChange [] st)
    = ([], DocumentUpload.onChange [] st)
  /\ DocumentUpload.onUpload net
       (DocumentUpload.onChange [] (DocumentUpload.onChange (g :: others) st))
     = ([], DocumentUpload.onChange [] st)
  /\ DocumentUpload.requests
       (DocumentUpload.onUpload net
          (DocumentUpload.onChange (f :: others) st)).1
     = [DocumentUpload.upload_request f]
  /\ req_body (DocumentUpload.upload_request f) = FormData [("file", f)]
  /\ DocumentUpload.status (DocumentUpload.onChange (f :: others) st)
     = DocumentUpload.status st.
Proof. repeat split. Qed.

(** X5: [onUpload] never touches [file]: after any upload the same file is
    still chosen, so a second click posts the same request again. *)
Theorem onUpload_again_resends
    (net net' : network) (st : DocumentUpload.state) :
  DocumentUpload.file (DocumentUpload.onUpload net st).2 = DocumentUpload.file st
  /\ DocumentUpload.requests
       (DocumentUpload.onUpload net' (DocumentUpload.onUpload net st).2).1
     = DocumentUpload.requests (DocumentUpload.onUpload net st).1
  /\ length (DocumentUpload.requests (DocumentUpload.onUpload net st).1) <= 1.
Proof.
  unfold DocumentUpload.onUpload.
  destruct (DocumentUpload.file st) as [| | f] eqn:Hfile; cbn; rewrite ?Hfile;
    repeat split; cbn; lia.
Qed.

(** ** DocumentList: failed loads, odd answers, Refresh, rendering *)

Lemma or_else_falsy (a b : JS.value) :
  JS.truthy a = false -> JS.or_else a b = b.
Proof. unfold JS.or_else. intros ->. reflexivity. Qed.

Lemma or_else_keeps (a b : JS.value) :
  JS.truthy a = true -> JS.or_else a b = a.
Proof. unfold JS.or_else. intros ->. reflexivity. Qed.

Lemma load_no_body (net : network) (st : DocumentList.state) :
  no_body (net DocumentList.list_request) = true ->
  DocumentList.load net st = ([DocumentList.Fetch DocumentList.list_request], st).
Proof.
  unfold DocumentList.load.
  destruct (net DocumentList.list_request) as [| ok [data |]]; cbn;
    [reflexivity | | reflexivity].
  intros Hnull. apply (get_none_nullish data "documents") in Hnull.
  rewrite Hnull. reflexivity.
Qed.

(** X6: a load that gets nothing to read (the fetch rejects, the body is not
    JSON, or the body is [null]) has sent its request and stores nothing:
    the list shown before stays; when this happens to the load at mount,
    the component shows [No documents yet.]. *)
Theorem load_failure_keeps_docs
    (toLocaleString : JS.value -> string) (net : network)
    (st : DocumentList.state) :
  no_body (net DocumentList.list_request) = true ->
  DocumentList.load net st = ([DocumentList.Fetch DocumentList.list_request], st)
  /\ DocumentList.render toLocaleString (DocumentList.load net st).2
     = DocumentList.render toLocaleString st
  /\ DocumentList.render toLocaleString (DocumentList.mount net).2
     = React.Rendered
         (documents_card
            (React.Elem "div" None [] [React.Text "No documents yet."])).
Proof.
  intros Hnone. split; [apply load_no_body, Hnone |].
  split; [rewrite (load_no_body net st Hnone); reflexivity |].
  unfold DocumentList.mount.
  rewrite (load_no_body net DocumentList.initial Hnone). reflexivity.
Qed.

Lemma load_failure_keeps_docs_witness :
  let shown := {| DocumentList.docs :=
                    JS.Arr [JS.Obj [("document_id", JS.Str "doc-1");
                                    ("title", JS.Str "Paper A")]] |} in
  let net := fun _ : request => Responded true None in
  no_body (net DocumentList.list_request) = true
  /\ DocumentList.load net shown
     = ([DocumentList.Fetch DocumentList.list_request], shown).
Proof.
  intros shown net. split; [reflexivity |].
  exact (proj1 (load_failure_keeps_docs JS.to_string net shown eq_refl)).
Defined.

(** [load] does not look at [res.ok]: an error response is handled exactly
    as a success with the same body. *)
Theorem load_ignores_ok (body : option JS.value) (st : DocumentList.state) :
  DocumentList.load (fun _ => Responded false body) st
  = DocumentList.load (fun _ => Responded true body) st.
Proof. reflexivity. Qed.

(** X7: a body that can be read but has no [documents], or a falsy one
    ([null], [false], [0], the empty string), makes [load] store the empty
    list, so the component shows [No documents yet.] whatever it showed
    before. *)
Theorem load_without_documents_shows_empty
    (toLocaleString : JS.value -> string) (net : network)
    (ok : bool) (data : JS.value) (st : DocumentList.state) :
  net DocumentList.list_request = Responded ok (Some data) ->
  JS.nullish data = false ->
  JS.truthy (JS.get_opt data "documents") = false ->
  DocumentList.load net st
  = ([DocumentList.Fetch DocumentList.list_request;
      DocumentList.SetDocs (JS.Arr [])],
     {| DocumentList.docs := JS.Arr [] |})
  /\ DocumentList.render toLocaleString (DocumentList.load net st).2
     = React.Rendered
         (documents_card
            (React.Elem "div" None [] [React.Text "No documents yet."])).
Proof.
  intros Hnet Hdata Hfalsy.
  assert (Hload : DocumentList.load net st
    = ([DocumentList.Fetch DocumentList.list_request;
        DocumentList.SetDocs (JS.Arr [])],
       {| DocumentList.docs := JS.Arr [] |})).
  { unfold DocumentList.load. rewrite Hnet.
    unfold JS.get_opt in Hfalsy.
    destruct (JS.get data "documents") as [v |] eqn:Hget.
    - cbn in Hfalsy. rewrite (or_else_falsy _ _ Hfalsy). reflexivity.
    - apply get_none_nullish in Hget. congruence. }
  split; [exact Hload |]. rewrite Hload. reflexivity.
Qed.

Lemma load_without_documents_shows_empty_witness :
  let data := JS.Obj [("detail", JS.Str "Not Found")] in
  let net := fun _ : request => Responded false (Some data) in
  let shown := {| DocumentList.docs := JS.Arr [JS.Obj [("title", JS.Str "A")]] |} in
  net DocumentList.list_request = Responded false (Some data)
  /\ JS.nullish data = false
  /\ JS.truthy (JS.get_opt data "documents") = false
  /\ DocumentList.docs (DocumentList.load net shown).2 = JS.Arr [].
Proof.
  intros data net shown.
  split; [reflexivity |]. split; [reflexivity |]. split; [reflexivity |].
  rewrite (proj1 (load_without_documents_shows_empty JS.to_string net false
                    data shown eq_refl eq_refl eq_refl)).
  reflexivity.
Defined.

(** X8: refresh is idempotent: against an unchanged network a second [load]
    performs the same effects and leaves the same state as the first. *)
Theorem load_idempotent (net : network) (st : DocumentList.state) :
  DocumentList.load net (DocumentList.load net st).2 = DocumentList.load net st.
Proof.
  unfold DocumentList.load.
  destruct (net DocumentList.list_request) as [| ok [data |]]; cbn;
    [reflexivity | | reflexivity].
  destruct (JS.get data "documents"); reflexivity.
Qed.

Lemma load_keeps_truthy (net : network) (st : DocumentList.state) :
  JS.truthy (DocumentList.docs st) = true ->
  JS.truthy (DocumentList.docs (DocumentList.load net st).2) = true.
Proof.
  intros Hst. unfold DocumentList.load.
  destruct (net DocumentList.list_request) as [| ok [data |]]; cbn;
    [exact Hst | | exact Hst].
  destruct (JS.get data "documents") as [v |]; cbn; [| exact Hst].
  rewrite or_else_truthy. apply orb_true_r.
Qed.

(** X9: through the mount and any number of refreshes, whatever the network
    answers, [docs] is never [null], [undefined] or another falsy value, so
    reading [docs.length] in the render never throws. *)
Theorem docs_stay_truthy (nets : list network) :
  let st := DocumentList.after_loads nets DocumentList.initial in
  JS.truthy (DocumentList.docs st) = true
  /\ JS.nullish (DocumentList.docs st) = false
  /\ is_Some (JS.get (DocumentList.docs st) "length").
Proof.
  intros st.
  assert (Htruthy : JS.truthy (DocumentList.docs st) = true).
  { unfold st, DocumentList.after_loads.
    assert (Hinit : JS.truthy (DocumentList.docs DocumentList.initial) = true)
      by reflexivity.
    revert Hinit. generalize DocumentList.initial as s0.
    induction nets as [| net nets IH]; intros s0 Hs0; [exact Hs0 |].
    cbn [foldl]. apply IH, load_keeps_truthy, Hs0. }
  split; [exact Htruthy |].
  destruct (DocumentList.docs st); try discriminate; cbn; eauto.
Qed.

Lemma row_none_unrenderable (toLocaleString : JS.value -> string) (d : JS.value) :
  DocumentList.row toLocaleString d = None <-> DocumentList.unrenderable d = true.
Proof.
  unfold DocumentList.row, DocumentList.unrenderable, JS.get_opt.
  destruct (JS.nullish d) eqn:Hnull.
  - apply (get_none_nullish d "document_id") in Hnull as Hget.
    rewrite Hget. cbn. split; reflexivity.
  - assert (Hsome : forall k, exists v, JS.get d k = Some v).
    { intros k. destruct (JS.get d k) as [v |] eqn:Hget; [eauto |].
      apply get_none_nullish in Hget. congruence. }
    destruct (Hsome "document_id") as [i ->].
    destruct (Hsome "title") as [t ->].
    destruct (Hsome "upload_date") as [u ->].
    destruct (Hsome "total_chunks") as [c ->].
    cbn. destruct (JS.printable u), (JS.printable i); cbn;
      split; intros H; try discriminate; reflexivity.
Qed.

(** X10: for a non-empty list the component function throws exactly when
    one of the elements is [null] or [undefined] or has an [upload_date] or
    a [document_id] without a conversion to text (an object with a
    [toString] member of its own, or an array holding one); otherwise it
    returns one row per element, in order. *)
Theorem render_list_throws_iff_null_item
    (toLocaleString : JS.value -> string) (items : list JS.value) :
  items <> [] ->
  let st := {| DocumentList.docs := JS.Arr items |} in
  (DocumentList.render toLocaleString st = React.Throws
   <-> Exists (fun d => DocumentList.unrenderable d = true) items)
  /\ (Forall (fun d => DocumentList.unrenderable d = false) items ->
      exists rows,
        mapM (DocumentList.row toLocaleString) items = Some rows
        /\ length rows = length items
        /\ DocumentList.render toLocaleString st
           = React.Rendered (documents_card (React.Items rows)))
  /\ DocumentList.unrenderable JS.Null = true
  /\ DocumentList.unrenderable
       (JS.Obj [("document_id", JS.Obj [("toString", JS.Num (JS.Int 1))])])
     = true
  /\ DocumentList.unrenderable (JS.Obj []) = false.
Proof.
  intros Hne st.
  assert (Hlisting : DocumentList.listing toLocaleString (JS.Arr items)
            = match mapM (DocumentList.row toLocaleString) items with
              | Some rows => React.Rendered (React.Items rows)
              | None => React.Throws
              end).
  { destruct items as [| d items]; [congruence |]. reflexivity. }
  unfold DocumentList.render, st; cbn [DocumentList.docs]. rewrite Hlisting.
  split; [| split; [| repeat split]].
  - destruct (mapM (DocumentList.row toLocaleString) items) as [rows |] eqn:Hrows.
    + split; [discriminate |]. intros Hex. exfalso.
      apply mapM_Some_1 in Hrows.
      apply Exists_exists in Hex as (d & Hd & Hbad).
      apply list_elem_of_lookup in Hd as [i Hi].
      destruct (Forall2_lookup_l _ _ _ _ _ Hrows Hi) as (r & _ & Hr).
      apply (row_none_unrenderable toLocaleString) in Hbad. congruence.
    + split; [intros _ | reflexivity].
      apply mapM_None_1 in Hrows.
      eapply Exists_impl; [exact Hrows |].
      intros d Hd. apply (row_none_unrenderable toLocaleString), Hd.
  - intros Hall.
    destruct (mapM (DocumentList.row toLocaleString) items) as [rows |] eqn:Hrows.
    + exists rows. split; [reflexivity |]. split; [| reflexivity].
      symmetry. eapply Forall2_length, mapM_Some_1, Hrows.
    + exfalso. apply mapM_None_1, Exists_exists in Hrows as (d & Hd & Hnone).
      apply (row_none_unrenderable toLocaleString) in Hnone.
      rewrite Forall_forall in Hall. specialize (Hall d Hd). congruence.
Qed.

Lemma render_list_throws_iff_null_item_witness :
  let items := [JS.Obj [("title", JS.Str "Paper A")]; JS.Null] in
  items <> []
  /\ DocumentList.render JS.to_string {| DocumentList.docs := JS.Arr items |}
     = React.Throws.
Proof.
  intros items.
  assert (Hne : items <> []) by discriminate.
  split; [exact Hne |].
  apply (proj1 (render_list_throws_iff_null_item JS.to_string items Hne)).
  apply Exists_cons_tl, Exists_cons_hd. reflexivity.
Defined.

(** X11: [load] stores a truthy [documents] without checking that it is an
    array; when it is not one (an object, a number, a string, [true]) and
    its [length] is not [0], the next render throws. *)
Theorem load_non_array_then_render_throws
    (toLocaleString : JS.value -> string) (net : network)
    (ok : bool) (data v : JS.value) (st : DocumentList.state) :
  net DocumentList.list_request = Responded ok (Some data) ->
  JS.get data "documents" = Some v ->
  JS.truthy v = true ->
  JS.is_array v = false ->
  JS.get v "length" <> Some (JS.Num (JS.Int 0)) ->
  DocumentList.docs (DocumentList.load net st).2 = v
  /\ DocumentList.render toLocaleString (DocumentList.load net st).2
     = React.Throws.
Proof.
  intros Hnet Hget Htruthy Harr Hlen.
  assert (Hdocs : (DocumentList.load net st).2 = {| DocumentList.docs := v |}).
  { unfold DocumentList.load. rewrite Hnet, Hget.
    rewrite (or_else_keeps _ _ Htruthy). reflexivity. }
  rewrite Hdocs. split; [reflexivity |].
  unfold DocumentList.render, DocumentList.listing; cbn [DocumentList.docs].
  destruct (JS.get v "length") as [len |]; [| reflexivity].
  destruct v; try discriminate; cbn in *;
    destruct len as [| | | [[| |] |] | | |]; try reflexivity; congruence.
Qed.

Lemma load_non_array_then_render_throws_witness :
  let v := JS.Obj [("doc-1", JS.Obj [("title", JS.Str "Paper A")])] in
  let data := JS.Obj [("documents", v)] in
  let net := fun _ : request => Responded true (Some data) in
  net DocumentList.list_request = Responded true (Some data)
  /\ JS.get data "documents" = Some v
  /\ DocumentList.render JS.to_string
       (DocumentList.load net DocumentList.initial).2
     = React.Throws.
Proof.
  intros v data net. split; [reflexivity |]. split; [reflexivity |].
  refine (proj2 (load_non_array_then_render_throws JS.to_string net true data v
                   DocumentList.initial eq_refl eq_refl eq_refl eq_refl _)).
  discriminate.
Defined.

(** ** ChatInterface: failed requests, odd answers, rendering *)

Lemma try_ask_no_body (out : fetch_outcome) :
  no_body out = true -> ChatInterface.try_ask out = None.
Proof.
  destruct out as [| ok [data |]]; cbn; [reflexivity | | reflexivity].
  intros Hnull. apply (get_none_nullish data "answer") in Hnull.
  rewrite Hnull. reflexivity.
Qed.

Lemma try_ask_body (ok : bool) (data : JS.value) :
  JS.nullish data = false ->
  ChatInterface.try_ask (Responded ok (Some data))
  = Some (JS.or_else (JS.get_opt data "answer") (JS.Str "No answer"),
          JS.or_else (JS.get_opt data "sources") (JS.Arr [])).
Proof. destruct data; cbn; intros H; try discriminate; reflexivity. Qed.

(** X12: when a question is asked and there is nothing to read in return (the
    fetch rejects, the body is not JSON, or the body is [null]), the answer
    becomes [Request failed] and the sources of an earlier answer are
    cleared, so the card shows no source under the failure text. *)
Theorem ask_failure_clears_sources (net : network) (st : ChatInterface.state) :
  ChatInterface.question st <> "" ->
  no_body (net (ChatInterface.ask_request (ChatInterface.question st))) = true ->
  let q := ChatInterface.question st in
  ChatInterface.ask net st
  = ([ChatInterface.SetAnswer (JS.Str "Thinking...");
      ChatInterface.Fetch (ChatInterface.ask_request q);
      ChatInterface.SetAnswer (JS.Str "Request failed");
      ChatInterface.SetSources (JS.Arr [])],
     {| ChatInterface.question := q;
        ChatInterface.answer := JS.Str "Request failed";
        ChatInterface.sources := JS.Arr [] |})
  /\ ChatInterface.render (ChatInterface.ask net st).2
     = React.Rendered
         (chat_card q (JS.Str "Request failed") (React.Expr (JS.Bool false))).
Proof.
  intros Hq Hnone q.
  assert (Hrun : ChatInterface.ask net st
    = ([ChatInterface.SetAnswer (JS.Str "Thinking...");
        ChatInterface.Fetch (ChatInterface.ask_request q);
        ChatInterface.SetAnswer (JS.Str "Request failed");
        ChatInterface.SetSources (JS.Arr [])],
       {| ChatInterface.question := q;
          ChatInterface.answer := JS.Str "Request failed";
          ChatInterface.sources := JS.Arr [] |})).
  { unfold ChatInterface.ask.
    apply String.eqb_neq in Hq. rewrite Hq.
    rewrite (try_ask_no_body _ Hnone). reflexivity. }
  split; [exact Hrun |]. rewrite Hrun. reflexivity.
Qed.

Lemma ask_failure_clears_sources_witness :
  let st := {| ChatInterface.question := "And the second paper?";
               ChatInterface.answer := JS.Str "Gradient descent.";
               ChatInterface.sources :=
                 JS.Arr [JS.Obj [("document_title", JS.Str "Paper A");
                                 ("chunk_text", JS.Str "We use gradient descent")]] |} in
  let net := fun _ : request => Rejected in
  ChatInterface.question st <> ""
  /\ no_body (net (ChatInterface.ask_request (ChatInterface.question st))) = true
  /\ ChatInterface.sources (ChatInterface.ask net st).2 = JS.Arr [].
Proof.
  intros st net.
  assert (Hq : ChatInterface.question st <> "") by discriminate.
  split; [exact Hq |]. split; [reflexivity |].
  rewrite (proj1 (ask_failure_clears_sources net st Hq eq_refl)). reflexivity.
Defined.

(** X13: [ask] reads nothing of a response but the [answer] and [sources]
    members of its body: two responses that agree on these two lead to the
    same effects and state, whatever their [ok] flags and other members. *)
Theorem ask_reads_answer_and_sources_only
    (net net' : network) (ok ok' : bool) (data data' : JS.value)
    (st : ChatInterface.state) :
  net (ChatInterface.ask_request (ChatInterface.question st))
    = Responded ok (Some data) ->
  net' (ChatInterface.ask_request (ChatInterface.question st))
    = Responded ok' (Some data') ->
  JS.get data "answer" = JS.get data' "answer" ->
  JS.get data "sources" = JS.get data' "sources" ->
  ChatInterface.ask net st = ChatInterface.ask net' st.
Proof.
  intros Hnet Hnet' Ha Hs. unfold ChatInterface.ask.
  destruct (String.eqb (ChatInterface.question st) ""); [reflexivity |].
  rewrite Hnet, Hnet'. unfold ChatInterface.try_ask. rewrite Ha, Hs.
  reflexivity.
Qed.

Lemma ask_reads_answer_and_sources_only_witness :
  let st := {| ChatInterface.question := "Which method?";
               ChatInterface.answer := JS.Str "";
               ChatInterface.sources := JS.Arr [] |} in
  let data := JS.Obj [("answer", JS.Str "Gradient descent.")] in
  let data' := JS.Obj [("answer", JS.Str "Gradient descent.");
                       ("detail", JS.Str "model overloaded")] in
  let net := fun _ : request => Responded true (Some data) in
  let net' := fun _ : request => Responded false (Some data') in
  JS.get data "answer" = JS.get data' "answer"
  /\ JS.get data "sources" = JS.get data' "sources"
  /\ ChatInterface.ask net st = ChatInterface.ask net' st.
Proof.
  intros st data data' net net'.
  split; [reflexivity |]. split; [reflexivity |].
  exact (ask_reads_answer_and_sources_only net net' true false data data' st
           eq_refl eq_refl eq_refl eq_refl).
Defined.

(** X14: a body that can be read but has no truthy [answer] and no truthy
    [sources], as an error body [{detail: ...}] is, is shown as
    [No answer] with no source: the failure text of the server does not
    reach the card. *)
Theorem ask_without_answer_shows_no_answer
    (net : network) (ok : bool) (data : JS.value) (st : ChatInterface.state) :
  ChatInterface.question st <> "" ->
  net (ChatInterface.ask_request (ChatInterface.question st))
    = Responded ok (Some data) ->
  JS.nullish data = false ->
  JS.truthy (JS.get_opt data "answer") = false ->
  JS.truthy (JS.get_opt data "sources") = false ->
  let q := ChatInterface.question st in
  (ChatInterface.ask net st).2
  = {| ChatInterface.question := q;
       ChatInterface.answer := JS.Str "No answer";
       ChatInterface.sources := JS.Arr [] |}
  /\ ChatInterface.render (ChatInterface.ask net st).2
     = React.Rendered
         (chat_card q (JS.Str "No answer") (React.Expr (JS.Bool false))).
Proof.
  intros Hq Hnet Hdata Ha Hs q.
  assert (Hrun : (ChatInterface.ask net st).2
    = {| ChatInterface.question := q;
         ChatInterface.answer := JS.Str "No answer";
         ChatInterface.sources := JS.Arr [] |}).
  { unfold ChatInterface.ask.
    apply String.eqb_neq in Hq. rewrite Hq, Hnet.
    rewrite (try_ask_body ok data Hdata).
    rewrite (or_else_falsy _ _ Ha), (or_else_falsy _ _ Hs). reflexivity. }
  split; [exact Hrun |]. rewrite Hrun. reflexivity.
Qed.

Lemma ask_without_answer_shows_no_answer_witness :
  let st := {| ChatInterface.question := "Which method?";
               ChatInterface.answer := JS.Str "";
               ChatInterface.sources := JS.Arr [] |} in
  let data := JS.Obj [("detail", JS.Str "Internal Server Error")] in
  let net := fun _ : request => Responded false (Some data) in
  ChatInterface.question st <> ""
  /\ JS.nullish data = false
  /\ ChatInterface.answer (ChatInterface.ask net st).2 = JS.Str "No answer".
Proof.
  intros st data net.
  assert (Hq : ChatInterface.question st <> "") by discriminate.
  split; [exact Hq |]. split; [reflexivity |].
  rewrite (proj1 (ask_without_answer_shows_no_answer net false data st Hq
                    eq_refl eq_refl eq_refl eq_refl)).
  reflexivity.
Defined.

(** X15: whatever the network does, one click on Ask sends at most one request:
    none for the empty question, otherwise one that carries the question as
    typed (a question of blanks included) with [user_id] [web]; and the
    click never changes the question in the input. *)
Theorem ask_at_most_one_request (net : network) (st : ChatInterface.state) :
  ChatInterface.requests (ChatInterface.ask net st).1
    = (if String.eqb (ChatInterface.question st) "" then []
       else [ChatInterface.ask_request (ChatInterface.question st)])
  /\ ChatInterface.question (ChatInterface.ask net st).2
     = ChatInterface.question st
  /\ (forall q, req_body (ChatInterface.ask_request q)
                = JsonText (JS.Obj [("question", JS.Str q);
                                    ("user_id", JS.Str "web")])).
Proof.
  unfold ChatInterface.ask.
  destruct (String.eqb (ChatInterface.question st) ""); [repeat split |].
  destruct (ChatInterface.try_ask _) as [[a s] |]; repeat split.
Qed.

Lemma ask_keeps_sources_truthy (net : network) (st : ChatInterface.state) :
  JS.truthy (ChatInterface.sources st) = true ->
  JS.truthy (ChatInterface.sources (ChatInterface.ask net st).2) = true.
Proof.
  intros Hst. unfold ChatInterface.ask.
  destruct (String.eqb (ChatInterface.question st) ""); [exact Hst |].
  unfold ChatInterface.try_ask.
  destruct (net _) as [| ok [data |]]; cbn; try reflexivity.
  destruct (JS.get data "answer"); cbn; [| reflexivity].
  destruct (JS.get data "sources"); cbn; [| reflexivity].
  rewrite or_else_truthy. apply orb_true_r.
Qed.

(** X16: through any series of typing and asking, whatever the network answers,
    [sources] is never [null], [undefined] or another falsy value, so
    reading [sources.length] in the render never throws. *)
Theorem sources_stay_truthy (events : list ChatInterface.event) :
  let st := ChatInterface.run events ChatInterface.initial in
  JS.truthy (ChatInterface.sources st) = true
  /\ JS.nullish (ChatInterface.sources st) = false
  /\ is_Some (JS.get (ChatInterface.sources st) "length").
Proof.
  intros st.
  assert (Htruthy : JS.truthy (ChatInterface.sources st) = true).
  { unfold st, ChatInterface.run.
    assert (Hinit : JS.truthy (ChatInterface.sources ChatInterface.initial) = true)
      by reflexivity.
    revert Hinit. generalize ChatInterface.initial as s0.
    induction events as [| e events IH]; intros s0 Hs0; [exact Hs0 |].
    cbn [foldl]. apply IH. destruct e as [text | net]; cbn [ChatInterface.step].
    - exact Hs0.
    - apply ask_keeps_sources_truthy, Hs0. }
  split; [exact Htruthy |].
  destruct (ChatInterface.sources st); try discriminate; cbn; eauto.
Qed.

Lemma source_row_none_nullish (i : nat) (s : JS.value) :
  ChatInterface.source_row i s = None <-> JS.nullish s = true.
Proof.
  unfold ChatInterface.source_row. destruct s; cbn; split; intros H;
    try discriminate; reflexivity.
Qed.

Lemma source_rows_none (i : nat) (items : list JS.value) :
  ChatInterface.source_rows i items = None
  <-> Exists (fun s => JS.nullish s = true) items.
Proof.
  revert i. induction items as [| s items IH]; intros i.
  - cbn. split; [discriminate | intros H; inversion H].
  - cbn [ChatInterface.source_rows].
    destruct (ChatInterface.source_row i s) as [r |] eqn:Hrow.
    + assert (Hs : JS.nullish s = false).
      { destruct (JS.nullish s) eqn:Hn; [| reflexivity].
        apply (source_row_none_nullish i) in Hn. congruence. }
      cbn. destruct (ChatInterface.source_rows (S i) items) as [rs |] eqn:Hrest.
      * cbn. split; [discriminate |]. intros Hex.
        apply Exists_inv in Hex as [Hex | Hex]; [congruence |].
        apply (IH (S i)) in Hex. congruence.
      * cbn. split; [intros _ | reflexivity].
        apply Exists_cons_tl, (IH (S i)), Hrest.
    + cbn. split; [intros _ | reflexivity].
      apply Exists_cons_hd, (source_row_none_nullish i), Hrow.
Qed.

Lemma source_rows_keys (i : nat) (items : list JS.value) (rows : list React.node) :
  ChatInterface.source_rows i items = Some rows ->
  length rows = length items
  /\ forall j r, rows !! j = Some r ->
       exists children,
         r = React.Elem "div" (Some (JS.Num (JS.Int (Z.of_nat (i + j))))) []
               children.
Proof.
  revert i rows. induction items as [| s items IH]; intros i rows.
  - cbn. intros [= <-]. split; [reflexivity |].
    intros j r Hr. rewrite lookup_nil in Hr. discriminate.
  - cbn [ChatInterface.source_rows].
    destruct (ChatInterface.source_row i s) as [r0 |] eqn:Hrow; [| discriminate].
    cbn. destruct (ChatInterface.source_rows (S i) items) as [rs |] eqn:Hrest;
      [| discriminate].
    cbn. intros [= <-]. destruct (IH (S i) rs Hrest) as [Hlen Hkeys].
    split; [cbn; f_equal; exact Hlen |].
    intros [| j] r Hr; cbn in Hr.
    + injection Hr as <-. rewrite Nat.add_0_r.
      unfold ChatInterface.source_row in Hrow.
      destruct (JS.get s "document_title"); [| discriminate].
      destruct (JS.get s "chunk_text"); [| discriminate].
      cbn in Hrow. injection Hrow as <-. eauto.
    + destruct (Hkeys j r Hr) as [children ->].
      exists children. do 4 f_equal. lia.
Qed.

(** X17: with an array in [sources], the render never needs a conversion the
    model leaves out; it throws exactly when an element of the array is
    [null] or [undefined]; otherwise it shows no source block for the empty
    array and else one row per element, in order, keyed by position. *)
Theorem render_sources_throws_iff_null_item
    (q : string) (a : JS.value) (items : list JS.value) :
  let st := {| ChatInterface.question := q; ChatInterface.answer := a;
               ChatInterface.sources := JS.Arr items |} in
  ChatInterface.render st <> React.Unmodelled
  /\ (ChatInterface.render st = React.Throws
      <-> Exists (fun s => JS.nullish s = true) items)
  /\ (items = [] ->
      ChatInterface.render st
      = React.Rendered (chat_card q a (React.Expr (JS.Bool false))))
  /\ (items <> [] -> Forall (fun s => JS.nullish s = false) items ->
      exists rows,
        ChatInterface.source_rows 0 items = Some rows
        /\ length rows = length items
        /\ (forall j r, rows !! j = Some r ->
              exists children,
                r = React.Elem "div" (Some (JS.Num (JS.Int (Z.of_nat j)))) []
                      children)
        /\ ChatInterface.render st
           = React.Rendered
               (chat_card q a
                  (React.Elem "div" None [("style", "marginTop:12")]
                     [ React.Elem "strong" None [] [React.Text "Sources:"];
                       React.Items rows ]))).
Proof.
  intros st.
  destruct items as [| s items].
  { split; [discriminate |]. split.
    - split; [discriminate | intros H; inversion H].
    - split; [reflexivity | congruence]. }
  assert (Hblock : ChatInterface.sources_block (JS.Arr (s :: items))
            = match ChatInterface.source_rows 0 (s :: items) with
              | None => React.Throws
              | Some rows =>
                  React.Rendered
                    (React.Elem "div" None [("style", "marginTop:12")]
                       [ React.Elem "strong" None [] [React.Text "Sources:"];
                         React.Items rows ])
              end).
  { reflexivity. }
  unfold ChatInterface.render, st; cbn [ChatInterface.sources
    ChatInterface.question ChatInterface.answer]. rewrite Hblock.
  destruct (ChatInterface.source_rows 0 (s :: items)) as [rows |] eqn:Hrows.
  - split; [discriminate |]. split; [| split; [discriminate |]].
    + split; [discriminate |]. intros Hex.
      apply (source_rows_none 0) in Hex. congruence.
    + intros _ _. exists rows.
      destruct (source_rows_keys 0 _ _ Hrows) as [Hlen Hkeys].
      split; [reflexivity |]. split; [exact Hlen |]. split; [exact Hkeys |].
      reflexivity.
  - split; [discriminate |]. split; [| split; [discriminate |]].
    + split; [intros _ | reflexivity]. apply (source_rows_none 0), Hrows.
    + intros _ Hall. exfalso.
      apply (source_rows_none 0), Exists_exists in Hrows as (x & Hx & Hnull).
      rewrite Forall_forall in Hall. specialize (Hall x Hx). congruence.
Qed.

(** ** ModernFrontend: status colours and the tab navigation *)

(** X18: the badge colours always come in a matching pair: for every status
    text the class is [bg-c-100 text-c-700] for one colour [c] of blue,
    yellow, green and gray, and it is gray exactly for a text that is none
    of [In Progress], [Planning], [Completed], letter for letter. *)
Theorem getStatusColor_family (status : string) :
  exists colour,
    colour ∈ ["blue"; "yellow"; "green"; "gray"]
    /\ ModernFrontend.getStatusColor status
       = "bg-" +:+ colour +:+ "-100 text-" +:+ colour +:+ "-700"
    /\ (colour = "gray"
        <-> status ∉ ["In Progress"; "Planning"; "Completed"])
    /\ ModernFrontend.getStatusColor "completed" = "bg-gray-100 text-gray-700".
Proof.
  unfold ModernFrontend.getStatusColor.
  destruct (String.eqb status "In Progress") eqn:H1.
  { apply String.eqb_eq in H1 as ->. exists "blue".
    split; [rewrite !elem_of_cons; auto |]. split; [reflexivity |].
    split; [| reflexivity]. split; [discriminate |].
    intros Hnot. exfalso. apply Hnot. rewrite !elem_of_cons. auto. }
  destruct (String.eqb status "Planning") eqn:H2.
  { apply String.eqb_eq in H2 as ->. exists "yellow".
    split; [rewrite !elem_of_cons; auto |]. split; [reflexivity |].
    split; [| reflexivity]. split; [discriminate |].
    intros Hnot. exfalso. apply Hnot. rewrite !elem_of_cons. auto. }
  destruct (String.eqb status "Completed") eqn:H3.
  { apply String.eqb_eq in H3 as ->. exists "green".
    split; [rewrite !elem_of_cons; auto |]. split; [reflexivity |].
    split; [| reflexivity]. split; [discriminate |].
    intros Hnot. exfalso. apply Hnot. rewrite !elem_of_cons. auto. }
  apply String.eqb_neq in H1, H2, H3. exists "gray".
  split; [rewrite !elem_of_cons; auto 6 |]. split; [reflexivity |].
  split; [| reflexivity]. split; [intros _ | reflexivity].
  rewrite !elem_of_cons, elem_of_nil. tauto.
Qed.

Lemma tab_class_active (active tab : string) :
  ModernFrontend.tab_class active tab = ModernFrontend.active_class
  <-> tab = active.
Proof.
  unfold ModernFrontend.tab_class.
  destruct (String.eqb active tab) eqn:Heq.
  - apply String.eqb_eq in Heq as ->. split; reflexivity.
  - apply String.eqb_neq in Heq. split; [discriminate | congruence].
Qed.

Lemma run_keeps_tab (events : list ModernFrontend.event)
    (st : ModernFrontend.state) :
  ModernFrontend.activeTab st ∈ ModernFrontend.tabs ->
  ModernFrontend.activeTab (ModernFrontend.run events st) ∈ ModernFrontend.tabs.
Proof.
  revert st. induction events as [| e events IH]; intros st Hst; [exact Hst |].
  unfold ModernFrontend.run in *. cbn [foldl]. apply IH.
  destruct e as [i | text]; cbn [ModernFrontend.step]; [| exact Hst].
  destruct (ModernFrontend.tabs !! i) as [tab |] eqn:Hi; [| exact Hst].
  cbn. eapply list_elem_of_lookup_2, Hi.
Qed.

(** X19: through any series of clicks on the navigation and typing in the
    search box, the active tab stays one of the four tabs, and the
    navigation shows the four buttons Dashboard, Projects, Team, Analytics
    of which exactly one, that of the active tab, carries the highlighted
    class. *)
Theorem nav_one_active_button (events : list ModernFrontend.event) :
  let st := ModernFrontend.run events ModernFrontend.initial in
  let button := fun tab label =>
    React.Elem "button" (Some (JS.Str tab))
      [("onClick", "setActiveTab(tab)");
       ("className", if String.eqb (ModernFrontend.activeTab st) tab
                     then ModernFrontend.active_class
                     else ModernFrontend.idle_class)]
      [React.Expr (JS.Str label)] in
  ModernFrontend.activeTab st ∈ ModernFrontend.tabs
  /\ ModernFrontend.nav st
     = React.Elem "nav" None
         [("className",
           "flex space-x-2 bg-white/60 backdrop-blur-sm rounded-xl p-2 inline-flex")]
         [React.Items [button "dashboard" "Dashboard";
                       button "projects" "Projects";
                       button "team" "Team";
                       button "analytics" "Analytics"]]
  /\ (forall tab, tab ∈ ModernFrontend.tabs ->
        (ModernFrontend.tab_class (ModernFrontend.activeTab st) tab
           = ModernFrontend.active_class
         <-> tab = ModernFrontend.activeTab st))
  /\ filter (fun c => c = ModernFrontend.active_class)
       (ModernFrontend.tab_class (ModernFrontend.activeTab st)
          <$> ModernFrontend.tabs)
     = [ModernFrontend.active_class].
Proof.
  intros st button.
  assert (Hin : ModernFrontend.activeTab st ∈ ModernFrontend.tabs).
  { apply run_keeps_tab. unfold ModernFrontend.tabs. apply list_elem_of_here. }
  split; [exact Hin |]. split; [| split].
  - unfold ModernFrontend.nav, button, ModernFrontend.tabs,
      ModernFrontend.tab_button, ModernFrontend.tab_class.
    cbn [fmap list_fmap ModernFrontend.tab_label].
    repeat f_equal;
      destruct (String.eqb (ModernFrontend.activeTab st) _); reflexivity.
  - intros tab _. apply tab_class_active.
  - unfold ModernFrontend.tabs in Hin.
    repeat (apply elem_of_cons in Hin as [-> | Hin]); [..| inversion Hin];
      vm_compute; reflexivity.
Qed.

(** ** TextChunker *)

Lemma ceil_div_spec (a b c : Z) :
  (0 < b)%Z -> (b * (c - 1) < a <= b * c)%Z -> ceil_div a b = c.
Proof.
  intros Hb [Hlo Hhi]. unfold ceil_div.
  assert (- a / b = - c)%Z; [| lia].
  symmetry. apply (Z.div_unique_pos (- a) b (- c) (b * c - a)); lia.
Qed.

Section Windows.

Variable cfg : TextChunker.config.
Variable extracted : list ascii.

Let C := TextChunker.chunk_size cfg.
Let s := TextChunker.stride cfg.
Let L := length extracted.

Lemma windows_lengths (fuel start : nat) :
  length <$> TextChunker.windows fuel cfg start extracted
  = TextChunker.window_lengths fuel cfg start (length extracted).
Proof.
  revert start. induction fuel as [| fuel IH]; intros start; [reflexivity |].
  cbn [TextChunker.windows TextChunker.window_lengths].
  case_decide; cbn [fmap list_fmap];
    rewrite length_take, length_drop; [reflexivity |].
  f_equal. apply IH.
Qed.

(** With fuel for the last window in, the loop ends by reaching the end of
    the text: the windows sit at multiples of the stride, every window but
    the last lies strictly inside the text, and the last one reaches its
    end. *)
Lemma windows_spec (fuel start : nat) :
  0 < s -> 1 <= fuel -> L <= start + (fuel - 1) * s + C ->
  let ws := TextChunker.windows fuel cfg start extracted in
  1 <= length ws
  /\ L <= start + (length ws - 1) * s + C
  /\ (forall p, S p < length ws -> start + p * s + C < L)
  /\ (forall p w, ws !! p = Some w ->
        w = take C (drop (start + p * s) extracted)).
Proof.
  intros Hs. revert start.
  induction fuel as [| fuel IH]; intros start Hfuel Henough; [lia |].
  cbn [TextChunker.windows]. fold C s L. case_decide as Hend.
  - cbn. repeat split; [lia | lia | lia |].
    intros [| p] w Hw; cbn in Hw; [| discriminate].
    injection Hw as <-. rewrite Nat.add_0_r. reflexivity.
  - assert (Hfuel' : 1 <= fuel) by (destruct fuel; cbn in *; lia).
    destruct (IH (start + s)) as (Hlen & Hlast & Hinner & Hnth);
      [exact Hfuel' | nia |].
    cbn [length]. repeat split.
    + lia.
    + replace (S (length (TextChunker.windows fuel cfg (start + s) extracted)) - 1)
        with (S (length (TextChunker.windows fuel cfg (start + s) extracted) - 1))
        by lia.
      lia.
    + intros [| p] Hp; [lia |].
      specialize (Hinner p ltac:(lia)). lia.
    + intros [| p] w Hw; cbn in Hw.
      * injection Hw as <-. rewrite Nat.add_0_r. reflexivity.
      * rewrite (Hnth p w Hw). do 2 f_equal. lia.
Qed.

(** Past that bound more fuel changes nothing: the loop has ended on its
    own. *)
Lemma windows_more_fuel (fuel start : nat) :
  0 < s -> 1 <= fuel -> L <= start + (fuel - 1) * s + C ->
  TextChunker.windows (S fuel) cfg start extracted
  = TextChunker.windows fuel cfg start extracted.
Proof.
  intros Hs. revert start.
  induction fuel as [| fuel IH]; intros start Hfuel Henough; [lia |].
  change (TextChunker.windows (S (S fuel)) cfg start extracted)
    with (let window := take C (drop start extracted) in
          if decide (L <= start + C) then [window]
          else window :: TextChunker.windows (S fuel) cfg (start + s) extracted).
  change (TextChunker.windows (S fuel) cfg start extracted)
    with (let window := take C (drop start extracted) in
          if decide (L <= start + C) then [window]
          else window :: TextChunker.windows fuel cfg (start + s) extracted).
  cbv zeta. case_decide as Hend; [reflexivity |].
  f_equal. apply IH.
  - destruct fuel; cbn in *; lia.
  - nia.
Qed.

End Windows.

Lemma chunk_text_lookup (cfg : TextChunker.config) (extracted : list ascii)
    (p : nat) (c : TextChunker.Chunk) :
  TextChunker.chunk_text cfg extracted !! p = Some c ->
  exists w,
    TextChunker.windows (length extracted) cfg 0 extracted !! p = Some w
    /\ c = {| TextChunker.chunk_id := p; TextChunker.position := p;
              TextChunker.text := w |}.
Proof.
  unfold TextChunker.chunk_text.
  destruct extracted as [| ch rest]; [rewrite lookup_nil; discriminate |].
  rewrite list_lookup_imap.
  destruct (_ !! p) as [w |]; cbn; [| discriminate].
  intros [= <-]. eauto.
Qed.

(** C3, amended: with [overlap < chunk_size], [extract_and_chunk] turns
    an extracted text longer than the overlap into exactly
    [ceil((L - O) / (C - O))] chunks and a non-empty text no longer than
    the overlap into exactly one; the chunk at
    position [p] is the window of the text that starts at offset
    [p * (C - O)] and is at most [C] long; every chunk but the last is
    exactly [C] long; and every offset below [L] lies in some chunk. *)
Theorem chunk_text_windows
    (extract_text : list Byte.byte -> option (list ascii))
    (cfg : TextChunker.config) (raw_bytes : list Byte.byte)
    (extracted : list ascii) :
  TextChunker.overlap cfg < TextChunker.chunk_size cfg ->
  extract_text raw_bytes = Some extracted ->
  let C := TextChunker.chunk_size cfg in
  let O := TextChunker.overlap cfg in
  let L := length extracted in
  let chunks := TextChunker.chunk_text cfg extracted in
  TextChunker.extract_and_chunk extract_text cfg raw_bytes = Ok chunks
  /\ (O < L ->
     Z.of_nat (length chunks)
     = ceil_div (Z.of_nat L - Z.of_nat O) (Z.of_nat C - Z.of_nat O))
  /\ (0 < L <= O -> length chunks = 1)
  /\ (forall p c, chunks !! p = Some c ->
        TextChunker.position c = p
        /\ TextChunker.text c = take C (drop (p * (C - O)) extracted))
  /\ (forall p c, chunks !! p = Some c -> S p < length chunks ->
        length (TextChunker.text c) = C)
  /\ (forall i, i < L ->
        exists p c, chunks !! p = Some c
          /\ p * (C - O) <= i < p * (C - O) + length (TextChunker.text c)).
Proof.
  intros Hcfg Hextract C O L chunks.
  split; [unfold TextChunker.extract_and_chunk; rewrite Hextract; reflexivity |].
  assert (Hlen : length chunks
                 = length (TextChunker.windows L cfg 0 extracted)).
  { unfold chunks, TextChunker.chunk_text, L.
    destruct extracted; [reflexivity | apply length_imap]. }
  destruct (decide (L = 0)) as [Hempty | Hnonempty].
  { assert (Hnil : chunks = []).
    { unfold chunks, TextChunker.chunk_text.
      destruct extracted; [reflexivity | discriminate]. }
    rewrite Hnil. split; [lia |]. split; [lia |].
    split; [intros p c Hp; rewrite lookup_nil in Hp; discriminate |].
    split; [intros p c Hp; rewrite lookup_nil in Hp; discriminate |].
    intros i Hi. lia. }
  destruct (windows_spec cfg extracted L 0) as (Hone & Hlast & Hinner & Hnth).
  { unfold TextChunker.stride. lia. }
  { fold L. lia. }
  { unfold TextChunker.stride. fold L C O.
    assert (L - 1 <= (L - 1) * (C - O)) by nia. lia. }
  unfold TextChunker.stride in *. fold L C O in Hone, Hlast, Hinner, Hnth.
  rewrite <- Hlen in Hone, Hlast, Hinner.
  assert (Htext : forall p c, chunks !! p = Some c ->
            TextChunker.position c = p
            /\ TextChunker.text c = take C (drop (p * (C - O)) extracted)).
  { intros p c Hp. apply chunk_text_lookup in Hp as (w & Hw & ->).
    split; [reflexivity |]. cbn. apply (Hnth p w Hw). }
  split; [| split; [| split; [exact Htext | split]]].
  - intros HL. symmetry. apply ceil_div_spec; [lia |].
    destruct (decide (length chunks = 1)) as [H1 | Hmore].
    + rewrite H1 in *. lia.
    + specialize (Hinner (length chunks - 2) ltac:(lia)). nia.
  - intros [_ HL].
    destruct (decide (length chunks = 1)) as [H1 | Hmore]; [exact H1 |].
    specialize (Hinner 0 ltac:(lia)). lia.
  - intros p c Hp Hlt. destruct (Htext p c Hp) as [_ ->].
    rewrite length_take, length_drop. fold L.
    specialize (Hinner p Hlt). lia.
  - intros i Hi.
    set (p := (i / (C - O)) `min` (length chunks - 1)).
    assert (Hp : p < length chunks) by (unfold p; lia).
    destruct (lookup_lt_is_Some_2 chunks p Hp) as [c Hc].
    exists p, c. split; [exact Hc |].
    destruct (Htext p c Hc) as [_ ->].
    rewrite length_take, length_drop. fold L.
    assert (Hdiv : (i / (C - O)) * (C - O) <= i
                   /\ i < (i / (C - O)) * (C - O) + (C - O)).
    { pose proof (Nat.div_mod_eq i (C - O)) as Hdm.
      pose proof (Nat.mod_upper_bound i (C - O) ltac:(lia)). lia. }
    destruct (decide (i / (C - O) <= length chunks - 1)) as [Hin | Hout].
    + replace p with (i / (C - O)) by (unfold p; lia). lia.
    + replace p with (length chunks - 1) by (unfold p; lia).
      assert ((length chunks - 1) * (C - O) <= (i / (C - O)) * (C - O)) by nia.
      lia.
Qed.

Lemma chunk_text_windows_witness :
  let cfg := {| TextChunker.chunk_size := 4; TextChunker.overlap := 1 |} in
  let extracted := String.list_ascii_of_string "abcdefghij" in
  let extract_text := fun _ : list Byte.byte => Some extracted in
  TextChunker.overlap cfg < TextChunker.chunk_size cfg
  /\ extract_text [] = Some extracted
  /\ Z.of_nat (length (TextChunker.chunk_text cfg extracted)) = 3%Z
  /\ (TextChunker.text <$> TextChunker.chunk_text cfg extracted)
     = String.list_ascii_of_string <$> ["abcd"; "defg"; "ghij"].
Proof.
  intros cfg extracted extract_text.
  assert (Hcfg : TextChunker.overlap cfg < TextChunker.chunk_size cfg)
    by (cbn; lia).
  split; [exact Hcfg |]. split; [reflexivity |].
  destruct (chunk_text_windows extract_text cfg [] extracted Hcfg eq_refl)
    as (_ & Hcount & _).
  split; [| reflexivity].
  rewrite Hcount; [reflexivity | cbn; lia].
Defined.

(** C3 as stated fails on a text no longer than the overlap: 100
    characters under [chunk_size = 1000], [overlap = 200] make one chunk,
    as covering them requires, while [ceil((100 - 200) / 800)] is 0. *)
Lemma chunk_count_short_text :
  let cfg := {| TextChunker.chunk_size := 1000; TextChunker.overlap := 200 |} in
  let extracted := replicate 100 "a"%char in
  TextChunker.overlap cfg < TextChunker.chunk_size cfg
  /\ length (TextChunker.chunk_text cfg extracted) = 1
  /\ ceil_div (100 - 200) (1000 - 200) = 0%Z
  /\ Z.of_nat (length (TextChunker.chunk_text cfg extracted))
     <> ceil_div (Z.of_nat (length extracted) - Z.of_nat (TextChunker.overlap cfg))
          (Z.of_nat (TextChunker.chunk_size cfg)
           - Z.of_nat (TextChunker.overlap cfg)).
Proof.
  intros cfg extracted. split; [cbn; lia |].
  split; [reflexivity |]. split; [reflexivity |].
  vm_compute. discriminate.
Qed.

Lemma chunk_lengths (cfg : TextChunker.config) (extracted : list ascii) :
  (fun c => length (TextChunker.text c)) <$> TextChunker.chunk_text cfg extracted
  = TextChunker.window_lengths (length extracted) cfg 0 (length extracted).
Proof.
  unfold TextChunker.chunk_text.
  destruct extracted as [| ch rest] eqn:Htext; [reflexivity |].
  rewrite <- Htext. clear Htext. rewrite fmap_imap.
  rewrite <- windows_lengths.
  generalize (TextChunker.windows (length extracted) cfg 0 extracted) as ws.
  intros ws. rewrite <- (imap_const length ws). apply imap_ext. reflexivity.
Qed.

(** C4, amended: a 5000-character text under [chunk_size = 1000] and
    [overlap = 200] gives exactly 6 chunks, each of them 1000 characters
    long (the last one spans the offsets 4000 to 5000). *)
Theorem paper_a_chunks (extracted : list ascii) :
  length extracted = 5000 ->
  let cfg := {| TextChunker.chunk_size := 1000; TextChunker.overlap := 200 |} in
  length (TextChunker.chunk_text cfg extracted) = 6
  /\ (fun c => length (TextChunker.text c)) <$> TextChunker.chunk_text cfg extracted
     = [1000; 1000; 1000; 1000; 1000; 1000].
Proof.
  intros HL cfg.
  assert (Hlens : (fun c => length (TextChunker.text c))
                    <$> TextChunker.chunk_text cfg extracted
                  = [1000; 1000; 1000; 1000; 1000; 1000]).
  { rewrite chunk_lengths, HL. vm_compute. reflexivity. }
  split; [| exact Hlens].
  rewrite <- (length_fmap (fun c => length (TextChunker.text c))), Hlens.
  reflexivity.
Qed.

Lemma paper_a_chunks_witness :
  let extracted := replicate 5000 "a"%char in
  let cfg := {| TextChunker.chunk_size := 1000; TextChunker.overlap := 200 |} in
  length extracted = 5000
  /\ length (TextChunker.chunk_text cfg extracted) = 6.
Proof.
  intros extracted cfg.
  assert (HL : length extracted = 5000) by (vm_compute; reflexivity).
  split; [exact HL |].
  exact (proj1 (paper_a_chunks extracted HL)).
Defined.

(** C4 as stated fails: the sixth chunk of a 5000-character text starts
    at offset 4000 and is 1000 characters long, not 800. *)
Lemma paper_a_last_chunk_length :
  let extracted := replicate 5000 "a"%char in
  let cfg := {| TextChunker.chunk_size := 1000; TextChunker.overlap := 200 |} in
  (fun c => length (TextChunker.text c)) <$> TextChunker.chunk_text cfg extracted
  = [1000; 1000; 1000; 1000; 1000; 1000]
  /\ (fun c => length (TextChunker.text c)) <$> TextChunker.chunk_text cfg extracted
     <> [1000; 1000; 1000; 1000; 1000; 800].
Proof.
  intros extracted cfg.
  assert (Hlens : (fun c => length (TextChunker.text c))
                    <$> TextChunker.chunk_text cfg extracted
                  = [1000; 1000; 1000; 1000; 1000; 1000])
    by (vm_compute; reflexivity).
  split; [exact Hlens |]. rewrite Hlens. intros Heq.
  apply (f_equal (fun l => l !! 5)) in Heq. cbn in Heq.
  injection Heq. lia.
Qed.

(** ** VectorIndex *)

Section Filters.

Context {A : Type} (P : A -> Prop) `{!forall x, Decision (P x)}.



Lemma filter_take_prefix (k : nat) (l : list A) :
  filter P (take k l) `prefix_of` filter P l.
Proof.
  exists (filter P (drop k l)).
  rewrite <- filter_app, take_drop. reflexivity.
Qed.

Lemma filter_app_inv (l u v : list A) :
  filter P l = u ++ v ->
  exists l1 l2, l = l1 ++ l2 /\ filter P l1 = u /\ filter P l2 = v.
Proof.
  revert u. induction l as [| x l IH]; intros u Heq.
  - symmetry in Heq. apply app_eq_nil in Heq as [-> ->].
    exists [], []. auto.
  - rewrite filter_cons in Heq. destruct (decide (P x)) as [Hx | Hx].
    + destruct u as [| y u]; cbn in Heq.
      * exists [], (x :: l). rewrite filter_cons_True by exact Hx. auto.
      * injection Heq as <- Heq.
        destruct (IH u Heq) as (l1 & l2 & -> & H1 & H2).
        exists (x :: l1), l2. rewrite filter_cons_True by exact Hx.
        rewrite H1. auto.
    + destruct (IH u Heq) as (l1 & l2 & -> & H1 & H2).
      exists (x :: l1), l2. rewrite filter_cons_False by exact Hx. auto.
Qed.

Lemma filter_cons_inv (l v : list A) (a : A) :
  filter P l = a :: v ->
  exists l1 l2, l = l1 ++ a :: l2 /\ filter P l2 = v.
Proof.
  induction l as [| x l IH]; intros Heq; [discriminate |].
  rewrite filter_cons in Heq. destruct (decide (P x)) as [Hx | Hx].
  - injection Heq as -> Heq. exists [], l. auto.
  - destruct (IH Heq) as (l1 & l2 & -> & H2). exists (x :: l1), l2. auto.
Qed.

(** Two elements that follow one another in a filtered list do so in the
    list itself. *)
Lemma filter_order (l u w z : list A) (a b : A) :
  filter P l = u ++ a :: w ++ b :: z -> stands_before l a b.
Proof.
  intros Heq.
  apply filter_app_inv in Heq as (l1 & m1 & -> & _ & Heq).
  apply filter_cons_inv in Heq as (l2 & m2 & -> & Heq).
  apply filter_app_inv in Heq as (l3 & m3 & -> & _ & Heq).
  apply filter_cons_inv in Heq as (l4 & l5 & -> & _).
  exists (l1 ++ l2), (l3 ++ l4), l5.
  rewrite <- !app_assoc. reflexivity.
Qed.

End Filters.

Lemma lookup_pair_split {A : Type} (l : list A) (i j : nat) (a b : A) :
  i < j -> l !! i = Some a -> l !! j = Some b ->
  exists l1 l2 l3, l = l1 ++ a :: l2 ++ b :: l3.
Proof.
  intros Hij Ha Hb.
  pose proof (take_drop_middle l i a Ha) as Hsplit.
  assert (Hlater : drop (S i) l !! (j - S i) = Some b).
  { rewrite lookup_drop. replace (S i + (j - S i)) with j by lia. exact Hb. }
  pose proof (take_drop_middle _ _ b Hlater) as Hsplit2.
  exists (take i l), (take (j - S i) (drop (S i) l)),
         (drop (S (j - S i)) (drop (S i) l)).
  rewrite Hsplit2. symmetry. exact Hsplit.
Qed.








Section Ranking.

Variable cosine_similarity : Embedding.vector -> Embedding.vector -> Qc.

Lemma place_perm (x : VectorIndex.QueryResult) (l : list VectorIndex.QueryResult) :
  VectorIndex.place x l ≡ₚ x :: l.
Proof.
  induction l as [| y l IH]; [reflexivity |].
  cbn [VectorIndex.place]. case_decide; [| reflexivity].
  rewrite IH. apply Permutation_swap.
Qed.

Lemma rank_perm (l : list VectorIndex.QueryResult) : VectorIndex.rank l ≡ₚ l.
Proof.
  induction l as [| x l IH]; [reflexivity |].
  cbn [VectorIndex.rank foldr]. fold (VectorIndex.rank l).
  rewrite place_perm, IH. reflexivity.
Qed.

Lemma place_sorted (x : VectorIndex.QueryResult) (l : list VectorIndex.QueryResult) :
  StronglySorted VectorIndex.outranks l -> StronglySorted VectorIndex.outranks (VectorIndex.place x l).
Proof.
  induction 1 as [| y l Hsorted IH Hall]; cbn [VectorIndex.place].
  - repeat constructor.
  - case_decide as Hlt.
    + constructor; [exact IH |].
      rewrite place_perm. constructor; [| exact Hall].
      unfold VectorIndex.outranks. apply Qclt_le_weak, Hlt.
    + apply Qcnot_lt_le in Hlt.
      constructor; [constructor; assumption |].
      constructor; [exact Hlt |].
      eapply Forall_impl; [exact Hall |].
      unfold VectorIndex.outranks. intros z Hz. eapply Qcle_trans; eassumption.
Qed.

Lemma rank_sorted (l : list VectorIndex.QueryResult) :
  StronglySorted VectorIndex.outranks (VectorIndex.rank l).
Proof.
  induction l as [| x l IH]; [constructor |].
  cbn [VectorIndex.rank foldr]. apply place_sorted, IH.
Qed.

Lemma place_keeps_ties (s : Qc) (x : VectorIndex.QueryResult)
    (l : list VectorIndex.QueryResult) :
  filter (VectorIndex.scores s) (VectorIndex.place x l) = filter (VectorIndex.scores s) (x :: l).
Proof.
  induction l as [| y l IH]; [reflexivity |].
  cbn [VectorIndex.place]. case_decide as Hlt; [| reflexivity].
  rewrite (filter_cons _ y), IH, !(filter_cons _ x), (filter_cons _ y).
  destruct (decide (VectorIndex.scores s y)) as [Hy |]; [| reflexivity].
  destruct (decide (VectorIndex.scores s x)) as [Hx |]; [| reflexivity].
  unfold VectorIndex.scores in Hx, Hy. rewrite Hx, Hy in Hlt.
  destruct (Qclt_not_eq _ _ Hlt). reflexivity.
Qed.

Lemma rank_keeps_ties (s : Qc) (l : list VectorIndex.QueryResult) :
  filter (VectorIndex.scores s) (VectorIndex.rank l) = filter (VectorIndex.scores s) l.
Proof.
  induction l as [| x l IH]; [reflexivity |].
  cbn [VectorIndex.rank foldr]. fold (VectorIndex.rank l).
  rewrite place_keeps_ties, !(filter_cons _ x), IH. reflexivity.
Qed.

Lemma sorted_take {A : Type} (R : relation A) (k : nat) (l : list A) :
  StronglySorted R l -> StronglySorted R (take k l).
Proof.
  intros Hsorted. revert k.
  induction Hsorted as [| x l _ IH Hall]; intros [| k]; cbn; try constructor.
  - apply IH.
  - apply Forall_forall. intros y Hy.
    rewrite Forall_forall in Hall. apply Hall.
    apply elem_of_take in Hy as (i & Hi & _).
    eapply list_elem_of_lookup_2, Hi.
Qed.

Lemma sorted_lookup {A : Type} (R : relation A) (l : list A) :
  StronglySorted R l ->
  forall i j a b, i < j -> l !! i = Some a -> l !! j = Some b -> R a b.
Proof.
  induction 1 as [| x l _ IH Hall]; intros i j a b Hij Ha Hb.
  - rewrite lookup_nil in Ha. discriminate.
  - destruct j as [| j]; [lia |]. cbn in Hb.
    destruct i as [| i]; cbn in Ha.
    + injection Ha as <-. rewrite Forall_forall in Hall.
      apply Hall. eapply list_elem_of_lookup_2, Hb.
    + apply (IH i j); [lia | assumption | assumption].
Qed.

(** C2: whatever the query vector, [top_k], filter and index, the hits of
    [query] are the first [top_k] of a reordering of the candidates (the
    index's records in insertion order, each with its cosine to the query
    vector); a later hit never scores higher than an earlier one; of two
    hits with equal score the earlier one comes from the record inserted
    first; and the hits of any one score are, in order, a prefix of the
    candidates of that score. *)
Theorem query_ranked (q : Embedding.vector) (top_k : nat)
    (keep : option (VectorIndex.metadata -> bool)) (idx : VectorIndex.index) :
  let hits := VectorIndex.query cosine_similarity q top_k keep idx in
  let known := VectorIndex.candidates cosine_similarity q keep idx in
  StronglySorted VectorIndex.outranks hits
  /\ (forall i j a b, i < j -> hits !! i = Some a -> hits !! j = Some b ->
        (VectorIndex.similarity_score b <= VectorIndex.similarity_score a)%Qc)
  /\ (forall i j a b, i < j -> hits !! i = Some a -> hits !! j = Some b ->
        VectorIndex.similarity_score a = VectorIndex.similarity_score b ->
        stands_before known a b)
  /\ (forall s, filter (VectorIndex.scores s) hits
                `prefix_of` filter (VectorIndex.scores s) known)
  /\ (exists ranked, ranked ≡ₚ known /\ hits = take top_k ranked)
  /\ length hits = top_k `min` length known.
Proof.
  intros hits known.
  assert (Hsorted : StronglySorted VectorIndex.outranks hits).
  { apply sorted_take, rank_sorted. }
  assert (Hties : forall s, filter (VectorIndex.scores s) hits
                    `prefix_of` filter (VectorIndex.scores s) known).
  { intros s. rewrite <- (rank_keeps_ties s known).
    apply filter_take_prefix. }
  split; [exact Hsorted |]. split; [| split; [| split; [exact Hties | split]]].
  - intros i j a b Hij Ha Hb.
    exact (sorted_lookup VectorIndex.outranks hits Hsorted i j a b Hij Ha Hb).
  - intros i j a b Hij Ha Hb Heq.
    destruct (lookup_pair_split hits i j a b Hij Ha Hb)
      as (h1 & h2 & h3 & Hsplit).
    destruct (Hties (VectorIndex.similarity_score a)) as [rest Hrest].
    rewrite Hsplit in Hrest.
    rewrite filter_app, filter_cons_True in Hrest by reflexivity.
    rewrite filter_app, filter_cons_True in Hrest
      by (unfold VectorIndex.scores; congruence).
    rewrite <- !app_assoc in Hrest. cbn in Hrest.
    rewrite <- !app_assoc in Hrest. cbn in Hrest.
    eapply filter_order, Hrest.
  - exists (VectorIndex.rank known). split; [apply rank_perm | reflexivity].
  - unfold hits, VectorIndex.query. fold known.
    rewrite length_take, (Permutation_length (rank_perm known)). reflexivity.
Qed.

End Ranking.

(** ** RetrievalOrchestrator and AnswerSynthesizer *)

Section Empty.

Variable cosine_similarity : Embedding.vector -> Embedding.vector -> Qc.
Variable embed_question : string -> option Embedding.vector.
Variable language_model : nat -> string -> option string.



End Empty.


